(** * BotTemplateDeployer: template selection and deployment parameters

    A shallow embedding of
    [azure/cli/command_modules/botservice/bot_template_deployer.py]:
    the site-name derivation and the ARM parameter dictionary of
    [create_app], the template resolver [__retrieve_bot_template_link]
    and the parameter merge [__process_parameters].

    Python strings are modelled by [string]; a character is one of the
    256 code points of [ascii] (the Latin-1 range), on which [str.lower]
    is modelled exactly.  Python exceptions are values of [exn]
    ([OtherException] stands for what a collaborator outside the module
    may raise); a call that may raise returns a [result]. *)

From Stdlib Require Import String Ascii List Bool Arith ZArith Lia.
From stdpp Require Import gmap strings list fin_maps.
From Equations Require Import Equations.
From Equations.Prop Require Import Logic.
Import ListNotations.

(** ** Exceptions and results *)

Inductive exn : Type :=
| CLIError (msg : string)
| IndexError
| AttributeError
| TypeError
| ValueError
| OtherException (name : string).

Inductive result (A : Type) : Type :=
| Ok (a : A)
| Raise (e : exn).

Arguments Ok {A} a.
Arguments Raise {A} e.

(** ** Python string operations used by the module *)

Definition code (c : ascii) : nat := nat_of_ascii c.

Definition in_range (lo hi : nat) (c : ascii) : bool :=
  ((lo <=? code c) && (code c <=? hi))%nat.

(** The upper-case letters below code point 256: A-Z, and the Latin-1
    letters 192-214 and 216-222.  Each one lowers to the code point 32
    above it. *)
Definition is_upper (c : ascii) : bool :=
  in_range 65 90 c || in_range 192 214 c || in_range 216 222 c.

Definition lower_char (c : ascii) : ascii :=
  if is_upper c then ascii_of_nat (code c + 32) else c.

(** [s.lower()] *)
Fixpoint lower (s : string) : string :=
  match s with
  | EmptyString => EmptyString
  | String c s' => String (lower_char c) (lower s')
  end.

(** [s[:n]] for a literal [n >= 0] *)
Fixpoint slice_to (n : nat) (s : string) : string :=
  match n, s with
  | S n', String c s' => String c (slice_to n' s')
  | _, _ => EmptyString
  end.

(** [re.sub(r'[^...]', '', s)]: every character outside the class
    [keep] is replaced by the empty string. *)
Fixpoint re_sub_outside (keep : ascii -> bool) (s : string) : string :=
  match s with
  | EmptyString => EmptyString
  | String c s' =>
      if keep c then String c (re_sub_outside keep s')
      else re_sub_outside keep s'
  end.

Definition dash : ascii := "-"%char.

(** The class [a-z0-9\-] *)
Definition site_name_class (c : ascii) : bool :=
  in_range 97 122 c || in_range 48 57 c || Ascii.eqb c dash.

(** The class [a-z0-9] *)
Definition storage_name_class (c : ascii) : bool :=
  in_range 97 122 c || in_range 48 57 c.

(** [s[-1]]: the last character; IndexError on the empty string. *)
Fixpoint last_index (s : string) : result ascii :=
  match s with
  | EmptyString => Raise IndexError
  | String c EmptyString => Ok c
  | String _ s' => last_index s'
  end.

(** [s[:-1]]: all but the last character (the empty string stays
    empty). *)
Fixpoint drop_last (s : string) : string :=
  match s with
  | EmptyString => EmptyString
  | String _ EmptyString => EmptyString
  | String c s' => String c (drop_last s')
  end.

(** [s.replace(' ', '')] *)
Definition remove_spaces (s : string) : string :=
  re_sub_outside (fun c => negb (Ascii.eqb c " "%char)) s.

(** [s.strip(c)]: leading and trailing occurrences of [c] removed. *)
Fixpoint lstrip (c : ascii) (s : string) : string :=
  match s with
  | EmptyString => EmptyString
  | String a s' => if Ascii.eqb a c then lstrip c s' else s
  end.

Fixpoint rstrip (c : ascii) (s : string) : string :=
  match s with
  | EmptyString => EmptyString
  | String a s' =>
      match rstrip c s' with
      | EmptyString => if Ascii.eqb a c then EmptyString else String a EmptyString
      | r => String a r
      end
  end.

Definition strip (c : ascii) (s : string) : string := rstrip c (lstrip c s).

Definition quote : ascii := "034"%char.

(** ** Site name (create_app, lines 84-89) *)

(** The loop
    [while site_name[-1] == '-': site_name = site_name[:-1]].
    Each iteration reads the last character, which raises IndexError
    on the empty string, and drops it when it is a dash. *)
Equations? strip_trailing_dashes (site_name : string) : result string
  by wf (String.length site_name) lt :=
  strip_trailing_dashes site_name with inspect (last_index site_name) := {
    | exist _ (Raise e) _ => Raise e
    | exist _ (Ok c) Hlast with Ascii.eqb c dash => {
        | true => strip_trailing_dashes (drop_last site_name)
        | false => Ok site_name } }.
Proof.
  clear strip_trailing_dashes. revert c Hlast.
  induction site_name as [|a s IH]; simpl; [discriminate|].
  destruct s as [|b s]; [simpl; lia|].
  intros c Hlast. specialize (IH c Hlast). simpl in *. lia.
Qed.

Definition derive_site_name (resource_name : string) : result string :=
  strip_trailing_dashes
    (re_sub_outside site_name_class (lower (slice_to 40 resource_name))).

(** ** Python values

    The values a JSON document denotes, and the raw values stored in the
    ARM parameter dictionary.  A Python [dict] with string keys is a
    [gmap string pyval]. *)

Inductive pyval : Type :=
| PNone
| PBool (b : bool)
| PInt (n : Z)
| PStr (s : string)
| PList (l : list pyval)
| PDict (d : gmap string pyval).

(** Python truth value, as tested by [if v:] *)
Definition truthy (v : pyval) : bool :=
  match v with
  | PNone => false
  | PBool b => b
  | PInt n => negb (Z.eqb n 0)
  | PStr s => negb (String.eqb s EmptyString)
  | PList l => negb (Nat.eqb (length l) 0)
  | PDict d => negb (Nat.eqb (size d) 0)
  end.

#[export] Instance result_ret : MRet result := fun _ a => Ok a.
#[export] Instance result_bind : MBind result := fun _ _ f m =>
  match m with
  | Ok a => f a
  | Raise e => Raise e
  end.

(** ** __process_parameters (lines 162-178) *)

Section ProcessParameters.

(** [azure.cli.core.util.shell_safe_json_parse] is imported by the module
    and not defined in it: it returns the parsed value or raises.  *)
Variable shell_safe_json_parse : string -> result pyval.

(** [dict.update(l)] for a list [l] (an iterable of key/value pairs) is
    behaviour of the Python runtime on which nothing here depends. *)
Variable update_from_pairs :
  gmap string pyval -> list pyval -> result (gmap string pyval).

(** [parsed.get('parameters', parsed)]: only a dict has [get]. *)
Definition get_parameters (parsed : pyval) : result pyval :=
  match parsed with
  | PDict d => Ok (default parsed (d !! "parameters"))
  | _ => Raise AttributeError
  end.

(** The inner function: a CLIError of the parser is caught and turned
    into [None]; any other exception propagates. *)
Definition _try_parse_json_object (value : string) : result pyval :=
  match shell_safe_json_parse value with
  | Ok parsed => get_parameters parsed
  | Raise (CLIError _) => Ok PNone
  | Raise e => Raise e
  end.

(** [parameters.update(param_obj)]: the keys of [param_obj] override
    those of [parameters]. *)
Definition dict_update (parameters : gmap string pyval) (param_obj : pyval)
  : result (gmap string pyval) :=
  match param_obj with
  | PDict d => Ok (d ∪ parameters)
  | PList l => update_from_pairs parameters l
  | PStr EmptyString => Ok parameters
  | PStr _ => Raise ValueError
  | PNone | PBool _ | PInt _ => Raise TypeError
  end.

(** One iteration of the inner loop body (lines 174-176). *)
Definition merge_item (parameters : gmap string pyval) (item : string)
  : result (gmap string pyval) :=
  param_obj ← _try_parse_json_object item;
  if truthy param_obj then dict_update parameters param_obj
  else Ok parameters.

(** [for item in params: ...] *)
Fixpoint merge_params (parameters : gmap string pyval) (params : list string)
  : result (gmap string pyval) :=
  match params with
  | [] => Ok parameters
  | item :: rest =>
      parameters' ← merge_item parameters item;
      merge_params parameters' rest
  end.

(** [for params in parameter_lists or []: ...] *)
Fixpoint merge_lists (parameters : gmap string pyval)
    (parameter_lists : list (list string)) : result (gmap string pyval) :=
  match parameter_lists with
  | [] => Ok parameters
  | params :: rest =>
      parameters' ← merge_params parameters params;
      merge_lists parameters' rest
  end.

(** [parameter_lists] may be [None]: [parameter_lists or []]. *)
Definition process_parameters (parameter_lists : option (list (list string)))
  : result (gmap string pyval) :=
  merge_lists ∅ (default [] parameter_lists).

End ProcessParameters.

(** ** External calls and their trace *)

Record http_response : Type := { status_code : Z; text : string }.

(** The keyword arguments of the call to [deploy_arm_template]. *)
Record deploy_call : Type := {
  call_resource_group_name : string;
  call_template_file : string;
  call_parameters : list (list string);
  call_deployment_name : string;
  call_mode : string
}.

Inductive event : Type :=
| EvHttpGet (url : string)
| EvDeploy (call : deploy_call)
| EvCreateBotJson (resource_group_name resource_name app_password : string).

(** A computation appends the external calls it makes to the trace and
    returns a value or raises. *)
Definition M (A : Type) : Type := list event -> list event * result A.

#[export] Instance M_ret : MRet M := fun _ a tr => (tr, Ok a).
#[export] Instance M_bind : MBind M := fun _ _ f m tr =>
  match m tr with
  | (tr', Ok a) => f a tr'
  | (tr', Raise e) => (tr', Raise e)
  end.

Definition raise {A : Type} (e : exn) : M A := fun tr => (tr, Raise e).
Definition lift {A : Type} (r : result A) : M A := fun tr => (tr, r).
Definition external {A : Type} (ev : event) (r : result A) : M A :=
  fun tr => (tr ++ [ev], r).

(** ** Class constants (lines 21-24) *)

Definition function_template_name : string := "functionapp.template.json".
Definition v3_webapp_template_name : string := "webapp.template.json".
Definition v4_webapp_template_name : string := "webappv4.template.json".

Definition template_root_url : string :=
  "https://dev.botframework.com/api/misc/bottemplateroot".

Definition cdn_error : exn :=
  CLIError ("Unable to get bot code template from CDN. Please file an issue on "
            +:+ "https://github.com/Microsoft/botbuilder-tools/issues").

Definition v4_function_error : exn :=
  CLIError "Function bot creation is not supported for v4 bot sdk.".

(** The arguments of [create_app]; [subscription_id] stands for
    [client.config.subscription_id].  [description] and
    [storageAccountName] may be [None]. *)
Record create_app_args : Type := {
  resource_group_name : string;
  resource_name : string;
  description : option string;
  kind : string;
  appid : string;
  password : string;
  storageAccountName : option string;
  location : string;
  sku_name : string;
  appInsightsLocation : string;
  language : string;
  version : string;
  subscription_id : string
}.

Section Deployer.

(** The collaborators outside this module: the HTTP client
    ([requests.get]), the JSON serialiser ([json.dumps]), the directory
    of the module file and [os.path.join], the outcome of
    [deploy_arm_template] (reading the template file and the ARM
    long-running operation), and [BotJsonFormatter.create_bot_json]. *)
Variable requests_get : string -> result http_response.
Variable json_dumps : gmap string pyval -> string.
Variable dir_path : string.
Variable path_join : string -> string -> string.
Variable deployment : deploy_call -> result pyval.
Variable create_bot_json : string -> string -> string -> result pyval.

(** *** __retrieve_bot_template_link (lines 180-211) *)

Definition retrieve_bot_template_link (version language kind : string)
  : M (string * string) :=
  response ← external (EvHttpGet template_root_url)
                      (requests_get template_root_url);
  if negb (Z.eqb (status_code response) 200) then raise cdn_error
  else
    let cdn_link := strip quote (text response) in
    if String.eqb version "v3" then
      if String.eqb kind "function" then
        let template_name := function_template_name in
        let cdn_link :=
          if String.eqb language "Csharp" then
            cdn_link +:+ "csharp-abs-functions_emptybot.zip"
          else if String.eqb language "Javascript" then
            cdn_link +:+ "node.js-abs-functions_emptybot_funcpack.zip"
          else cdn_link in
        mret (cdn_link, template_name)
      else
        let template_name := v3_webapp_template_name in
        let cdn_link :=
          if String.eqb language "Csharp" then
            cdn_link +:+ "csharp-abs-webapp_simpleechobot_precompiled.zip"
          else if String.eqb language "Javascript" then
            cdn_link +:+ "node.js-abs-webapp_hello-chatconnector.zip"
          else cdn_link in
        mret (cdn_link, template_name)
    else
      if String.eqb kind "function" then raise v4_function_error
      else
        let template_name := v4_webapp_template_name in
        let cdn_link :=
          if String.eqb language "Csharp" then
            cdn_link +:+ "csharp-abs-webapp-v4_echobot_precompiled.zip"
          else if String.eqb language "Javascript" then
            cdn_link +:+ "node.js-abs-webapp-v4_echobot.zip"
          else cdn_link in
        mret (cdn_link, template_name).

(** *** The ARM template parameters of create_app (lines 93-130) *)

(** The dictionary literal of lines 93-108. *)
Definition initial_paramsdict (a : create_app_args)
    (kind zip_url site_name : string) : gmap string pyval :=
  {[ "location" := PStr (location a);
     "kind" := PStr kind;
     "sku" := PStr (sku_name a);
     "siteName" := PStr site_name;
     "appId" := PStr (appid a);
     "appSecret" := PStr (password a);
     "serverFarmId" :=
       PStr ("/subscriptions/" +:+ subscription_id a +:+ "/resourceGroups/"
             +:+ resource_group_name a
             +:+ "/providers/Microsoft.Web/serverfarms/" +:+ resource_name a);
     "zipUrl" := PStr zip_url;
     "botEnv" := PStr "prod";
     "createServerFarm" := PBool true;
     "serverFarmLocation" := PStr (remove_spaces (lower (location a)));
     "azureWebJobsBotFrameworkDirectLineSecret" := PStr EmptyString;
     "botId" := PStr (resource_name a) ]}.

(** Lines 109-110. *)
Definition add_description (a : create_app_args)
    (paramsdict : gmap string pyval) : gmap string pyval :=
  match description a with
  | Some d =>
      if truthy (PStr d) then <["description" := PStr d]> paramsdict
      else paramsdict
  | None => paramsdict
  end.

(** Lines 112-128, the block under [if version == 'v3']. *)
Definition add_v3_parameters (a : create_app_args)
    (paramsdict : gmap string pyval) : gmap string pyval :=
  let paramsdict := <["createNewStorage" := PBool false]> paramsdict in
  let paramsdict := <["storageAccountResourceId" := PStr EmptyString]> paramsdict in
  let '(storageAccountName, paramsdict) :=
    match storageAccountName a with
    | Some s =>
        if truthy (PStr s) then (s, paramsdict)
        else (re_sub_outside storage_name_class (lower (slice_to 24 (resource_name a))),
              <["createNewStorage" := PBool true]> paramsdict)
    | None =>
        (re_sub_outside storage_name_class (lower (slice_to 24 (resource_name a))),
         <["createNewStorage" := PBool true]> paramsdict)
    end in
  let paramsdict := <["storageAccountName" := PStr storageAccountName]> paramsdict in
  let appInsightsLocation := remove_spaces (lower (appInsightsLocation a)) in
  let paramsdict := <["useAppInsights" := PBool true]> paramsdict in
  <["appInsightsLocation" := PStr appInsightsLocation]> paramsdict.

Definition build_paramsdict (a : create_app_args)
    (kind zip_url site_name : string) : gmap string pyval :=
  let paramsdict := initial_paramsdict a kind zip_url site_name in
  let paramsdict := add_description a paramsdict in
  if String.eqb (version a) "v3" then add_v3_parameters a paramsdict
  else paramsdict.

(** Line 130: [{k: {'value': v} for k, v in paramsdict.items()}]. *)
Definition wrap_values (paramsdict : gmap string pyval) : gmap string pyval :=
  (fun v => PDict {[ "value" := v ]}) <$> paramsdict.

Definition build_params (a : create_app_args)
    (kind zip_url site_name : string) : gmap string pyval :=
  wrap_values (build_paramsdict a kind zip_url site_name).

(** *** create_app (lines 56-149); the logger calls have no effect on
    the result and are left out. *)

Definition create_app (a : create_app_args) : M pyval :=
  let kind := if String.eqb (kind a) "webapp" then "sdk" else kind a in
  '(zip_url, template_name) ←
    retrieve_bot_template_link (version a) (language a) kind;
  site_name ← lift (derive_site_name (resource_name a));
  let params := build_params a kind zip_url site_name in
  let call :=
    {| call_resource_group_name := resource_group_name a;
       call_template_file := path_join dir_path template_name;
       call_parameters := [[json_dumps params]];
       call_deployment_name := resource_name a;
       call_mode := "Incremental" |} in
  deploy_result ← external (EvDeploy call) (deployment call);
  external (EvCreateBotJson (resource_group_name a) (resource_name a) (password a))
           (create_bot_json (resource_group_name a) (resource_name a) (password a)).

End Deployer.

(** ** Sample inputs and collaborators, used to run the model *)

Definition dq : string := String quote EmptyString.

Definition json_a : string :=
  "{" +:+ dq +:+ "parameters" +:+ dq +:+ ":{" +:+ dq +:+ "a" +:+ dq +:+ ":1}}".
Definition json_b : string :=
  "{" +:+ dq +:+ "a" +:+ dq +:+ ":2," +:+ dq +:+ "b" +:+ dq +:+ ":3}".

Definition sample_parse (s : string) : result pyval :=
  if String.eqb s json_a then Ok (PDict {[ "parameters" := PDict {[ "a" := PInt 1 ]} ]})
  else if String.eqb s json_b then Ok (PDict {[ "a" := PInt 2; "b" := PInt 3 ]})
  else if String.eqb s "{}" then Ok (PDict ∅)
  else if String.eqb s "0" then Ok (PInt 0)
  else if String.eqb s "false" then Ok (PBool false)
  else if String.eqb s "null" then Ok PNone
  else Raise (CLIError "Expecting value").

Definition json_p5 : string :=
  "{" +:+ dq +:+ "parameters" +:+ dq +:+ ":5}".

Definition sample_parse_values (s : string) : result pyval :=
  if String.eqb s json_p5 then Ok (PDict {[ "parameters" := PInt 5 ]})
  else if String.eqb s "[1]" then Ok (PList [PInt 1])
  else Raise (CLIError "Expecting value").

Definition update_sample (parameters : gmap string pyval) (l : list pyval)
  : result (gmap string pyval) := Ok parameters.

(** ** The merge in the words of the specification (section 4.4) *)

(** What an entry contributes: the nested object under "parameters" when
    the parsed object has that key, the parsed object itself otherwise;
    nothing when the entry does not parse. *)
Definition contribution (parse : string -> result pyval) (item : string)
  : option (gmap string pyval) :=
  match parse item with
  | Ok (PDict d) =>
      match d !! "parameters" with
      | Some (PDict p) => Some p
      | Some _ => None
      | None => Some d
      end
  | _ => None
  end.

(** The entries the specification speaks of: unparsable ones, and JSON
    objects whose "parameters" member, if any, is an object. *)
Definition well_formed (parse : string -> result pyval) (item : string)
  : bool :=
  match parse item with
  | Raise (CLIError _) => true
  | Ok (PDict d) =>
      match d !! "parameters" with
      | Some (PDict _) | None => true
      | Some _ => false
      end
  | _ => false
  end.

Definition item_value (parse : string -> result pyval) (k : string)
    (item : string) : option pyval :=
  match contribution parse item with
  | Some d => d !! k
  | None => None
  end.

(** Later sources override earlier ones: the value of a key is the one
    of the last entry that contributes it. *)
Fixpoint latest_value (parse : string -> result pyval) (k : string)
    (items : list string) : option pyval :=
  match items with
  | [] => None
  | item :: rest =>
      match latest_value parse k rest with
      | Some v => Some v
      | None => item_value parse k item
      end
  end.

(** ** The site-name rule in the words of the specification *)

(** Truncate to 40 characters, lowercase, remove what is outside
    [a-z0-9-], strip the trailing dashes. *)
Definition spec_site_name (resource_name : string) : string :=
  rstrip dash
    (re_sub_outside site_name_class (lower (slice_to 40 resource_name))).

Definition is_empty (s : string) : bool := String.eqb s EmptyString.

Fixpoint string_forallb (p : ascii -> bool) (s : string) : bool :=
  match s with
  | EmptyString => true
  | String c s' => p c && string_forallb p s'
  end.

(** ** The template table of the specification (section 4.1) *)

Definition is_v3 (version : string) : bool := String.eqb version "v3".
Definition is_function (kind : string) : bool := String.eqb kind "function".

(** Template file per (version, kind); no row for a function bot on a
    version other than v3. *)
Definition spec_template_name (version kind : string) : option string :=
  match is_v3 version, is_function kind with
  | true, true => Some function_template_name
  | true, false => Some v3_webapp_template_name
  | false, false => Some v4_webapp_template_name
  | false, true => None
  end.

(** Archive appended to the CDN root per (version, kind), for Csharp and
    for Javascript. *)
Definition csharp_archive (version kind : string) : string :=
  match is_v3 version, is_function kind with
  | true, true => "csharp-abs-functions_emptybot.zip"
  | true, false => "csharp-abs-webapp_simpleechobot_precompiled.zip"
  | false, _ => "csharp-abs-webapp-v4_echobot_precompiled.zip"
  end.

Definition javascript_archive (version kind : string) : string :=
  match is_v3 version, is_function kind with
  | true, true => "node.js-abs-functions_emptybot_funcpack.zip"
  | true, false => "node.js-abs-webapp_hello-chatconnector.zip"
  | false, _ => "node.js-abs-webapp-v4_echobot.zip"
  end.

Definition cdn_root : string := "https://cdn.example/".

Definition response_ok : http_response :=
  {| status_code := 200;
     text := String quote (cdn_root +:+ String quote EmptyString) |}.

Definition get_ok (url : string) : result http_response := Ok response_ok.

Definition get_unavailable (url : string) : result http_response :=
  Ok {| status_code := 500; text := EmptyString |}.

Definition join_sample (dir file : string) : string := dir +:+ "/" +:+ file.

Definition dumps_sample (params : gmap string pyval) : string := "{...}".
Definition deployment_sample (call : deploy_call) : result pyval := Ok PNone.
Definition create_bot_json_sample (rg name pw : string) : result pyval :=
  Ok PNone.

Definition sample_args (name kind version language : string) : create_app_args :=
  {| resource_group_name := "rg";
     resource_name := name;
     description := None;
     kind := kind;
     appid := "app-id";
     password := "secret";
     storageAccountName := None;
     location := "West US";
     sku_name := "F0";
     appInsightsLocation := "West US 2";
     language := language;
     version := version;
     subscription_id := "sub" |}.

(** The keys that only the v3 branch sets. *)
Definition v3_only_keys : list string :=
  ["createNewStorage"; "storageAccountResourceId"; "storageAccountName";
   "useAppInsights"; "appInsightsLocation"].

(** A raw parameter value: a string or a boolean, not a dict. *)
Definition is_scalar (v : pyval) : bool :=
  match v with
  | PStr _ | PBool _ => true
  | _ => false
  end.

(** ** Further parts of create_app *)

(** Line 117: the storage account name derived when none is given. *)
Definition derive_storage_name (resource_name : string) : string :=
  re_sub_outside storage_name_class (lower (slice_to 24 resource_name)).

(** Lines 105 and 125: [location.lower().replace(' ', '')]. *)
Definition normalize_location (location : string) : string :=
  remove_spaces (lower location).

(** Line 78: ['sdk' if kind == 'webapp' else kind]. *)
Definition normalized_kind (kind : string) : string :=
  if String.eqb kind "webapp" then "sdk" else kind.

(** The keys of the dictionary literal of lines 93-108. *)
Definition required_keys : list string :=
  ["location"; "kind"; "sku"; "siteName"; "appId"; "appSecret";
   "serverFarmId"; "zipUrl"; "botEnv"; "createServerFarm";
   "serverFarmLocation"; "azureWebJobsBotFrameworkDirectLineSecret";
   "botId"].

(** [w['value']] for a wrapped parameter. *)
Definition get_value (w : pyval) : option pyval :=
  match w with
  | PDict d => d !! "value"
  | _ => None
  end.

Definition with_kind (a : create_app_args) (k : string) : create_app_args :=
  {| resource_group_name := resource_group_name a;
     resource_name := resource_name a;
     description := description a;
     kind := k;
     appid := appid a;
     password := password a;
     storageAccountName := storageAccountName a;
     location := location a;
     sku_name := sku_name a;
     appInsightsLocation := appInsightsLocation a;
     language := language a;
     version := version a;
     subscription_id := subscription_id a |}.

Definition is_space (c : ascii) : bool := Ascii.eqb c " "%char.
Definition is_dash (c : ascii) : bool := Ascii.eqb c dash.

(** The exception an entry makes the merge raise, if any: what the
    parser raises other than CLIError, and AttributeError for a parsed
    value that is not a dict. *)
Definition entry_error (parse : string -> result pyval) (item : string)
  : option exn :=
  match parse item with
  | Raise (CLIError _) => None
  | Raise e => Some e
  | Ok (PDict _) => None
  | Ok _ => Some AttributeError
  end.

(** ** deploy_arm_template (lines 26-54) *)

(** [DeploymentProperties(template=, template_link=, parameters=, mode=)] *)
Record deployment_properties : Type := {
  dp_template : pyval;
  dp_template_link : option string;
  dp_parameters : pyval;
  dp_mode : option string
}.

Inductive arm_event : Type :=
| ArmGetFileJson (template_file : option string)
| ArmCreateOrUpdate (resource_group_name : string)
    (deployment_name : option string) (properties : deployment_properties).

Definition ArmM (A : Type) : Type :=
  list arm_event -> list arm_event * result A.

#[export] Instance ArmM_ret : MRet ArmM := fun _ a tr => (tr, Ok a).
#[export] Instance ArmM_bind : MBind ArmM := fun _ _ f m tr =>
  match m tr with
  | (tr', Ok a) => f a tr'
  | (tr', Raise e) => (tr', Raise e)
  end.

Definition arm_lift {A : Type} (r : result A) : ArmM A := fun tr => (tr, r).
Definition arm_external {A : Type} (ev : arm_event) (r : result A) : ArmM A :=
  fun tr => (tr ++ [ev], r).

(** [obj.get(key, dflt)]: only a dict has [get]. *)
Definition py_get (obj : pyval) (key : string) (dflt : pyval)
  : result pyval :=
  match obj with
  | PDict d => Ok (default dflt (d !! key))
  | _ => Raise AttributeError
  end.

(** [obj[key] = v] for a string key: a dict is updated, anything else
    does not support the assignment. *)
Definition py_setitem (obj : pyval) (key : string) (v : pyval)
  : result pyval :=
  match obj with
  | PDict d => Ok (PDict (<[key := v]> d))
  | _ => Raise TypeError
  end.

Section DeployArmTemplate.

(** Collaborators: [get_sdk] (which yields the model classes),
    [get_file_json], the parser and the list update of the merge,
    [json.loads(json.dumps(v))], and, as [create_or_update],
    [get_mgmt_service_client] with the client call awaited by
    [LongRunningOperation]. *)
Variable get_sdk : result unit.
Variable get_file_json : option string -> result pyval.
Variable shell_safe_json_parse : string -> result pyval.
Variable update_from_pairs :
  gmap string pyval -> list pyval -> result (gmap string pyval).
Variable json_round_trip : pyval -> result pyval.
Variable create_or_update :
  string -> option string -> deployment_properties -> result pyval.

Definition deploy_arm_template (resource_group_name : string)
    (template_file deployment_name : option string)
    (parameters : option (list (list string))) (mode : option string)
  : ArmM pyval :=
  _ ← arm_lift get_sdk;
  template ← arm_external (ArmGetFileJson template_file)
                          (get_file_json template_file);
  let template_obj := template in
  resources ← arm_lift (py_get template_obj "resources" (PList []));
  template_obj ← arm_lift (py_setitem template_obj "resources" resources);
  parameters ← arm_lift (process_parameters shell_safe_json_parse
                           update_from_pairs parameters);
  let parameters := if truthy (PDict parameters) then parameters else ∅ in
  template ← arm_lift (json_round_trip template_obj);
  parameters ← arm_lift (json_round_trip (PDict parameters));
  let properties :=
    {| dp_template := template;
       dp_template_link := None;
       dp_parameters := parameters;
       dp_mode := mode |} in
  arm_external
    (ArmCreateOrUpdate resource_group_name deployment_name properties)
    (create_or_update resource_group_name deployment_name properties).

End DeployArmTemplate.

Definition parse_sample_params (s : string) : result pyval :=
  Ok (PDict (build_params (sample_args "my-bot" "webapp" "v4" "Csharp")
               "sdk" "https://cdn.example/bot.zip" "my-bot")).

Definition template_sample : gmap string pyval :=
  {[ "$schema" := PStr "deploymentTemplate.json";
     "contentVersion" := PStr "1.0.0.0" ]}.

Definition get_file_json_sample (template_file : option string)
  : result pyval := Ok (PDict template_sample).

Definition json_round_trip_sample (v : pyval) : result pyval := Ok v.

Definition create_or_update_sample (resource_group_name : string)
    (deployment_name : option string) (properties : deployment_properties)
  : result pyval := Ok (PStr "Succeeded").

(** ** update (lines 151-160) *)

(** The [parameters] object, by what reading it gives: [obj_attr name]
    is the outcome of [obj.name], however the attribute is found
    (instance dictionary, class attribute, property or slot), and
    [obj_dict] is the outcome of [obj.__dict__], which raises
    AttributeError for an object without an instance dictionary. *)
Record py_object : Type := {
  obj_attr : string -> result pyval;
  obj_dict : result (gmap string pyval)
}.

(** A plain instance: its attributes are the entries of its instance
    dictionary. *)
Definition plain_instance (d : gmap string pyval) : py_object :=
  {| obj_attr := fun name =>
       match d !! name with
       | Some v => Ok v
       | None => Raise AttributeError
       end;
     obj_dict := Ok d |}.

(** The keyword arguments of [f(k1=v1, k2=v2, **extra)]: a key given
    twice is a TypeError. *)
Definition call_kwargs (k1 : string) (v1 : pyval) (k2 : string) (v2 : pyval)
    (extra : gmap string pyval) : result (gmap string pyval) :=
  match extra !! k1, extra !! k2 with
  | None, None => Ok (<[k1 := v1]> (<[k2 := v2]> extra))
  | _, _ => Raise TypeError
  end.

Definition client_sample (kwargs : gmap string pyval) : result pyval :=
  Ok (PDict kwargs).

Definition update (client_update : gmap string pyval -> result pyval)
    (parameters : py_object) (resource_group_name : string)
  : result pyval :=
  match
    (name ← obj_attr parameters "name";
     attributes ← obj_dict parameters;
     kwargs ← call_kwargs "resource_group_name" (PStr resource_group_name)
                "resource_name" name attributes;
     client_update kwargs)
  with
  | Raise AttributeError => Ok PNone
  | r => r
  end.

(** * Properties *)

(** ** Strings *)

Lemma last_index_raise (s : string) (e : exn) :
  last_index s = Raise e -> s = EmptyString /\ e = IndexError.
Proof.
  induction s as [|a s IH]; simpl.
  - intros [= <-]. split; reflexivity.
  - destruct s as [|b s]; [discriminate|].
    intros H. destruct (IH H) as [Hs _]. discriminate.
Qed.

Lemma rstrip_last_eq (d : ascii) (s : string) (c : ascii) :
  last_index s = Ok c -> Ascii.eqb c d = true ->
  rstrip d s = rstrip d (drop_last s).
Proof.
  induction s as [|a s IH]; [discriminate|].
  destruct s as [|b s].
  - simpl. intros [= ->] ->. reflexivity.
  - intros Hl Hc. specialize (IH Hl Hc).
    change (rstrip d (String a (String b s)))
      with (match rstrip d (String b s) with
            | EmptyString =>
                if Ascii.eqb a d then EmptyString else String a EmptyString
            | r => String a r
            end).
    change (drop_last (String a (String b s)))
      with (String a (drop_last (String b s))).
    rewrite IH. reflexivity.
Qed.

Lemma rstrip_last_ne (d : ascii) (s : string) (c : ascii) :
  last_index s = Ok c -> Ascii.eqb c d = false -> rstrip d s = s.
Proof.
  induction s as [|a s IH]; [discriminate|].
  destruct s as [|b s].
  - simpl. intros [= ->] ->. reflexivity.
  - intros Hl Hc. specialize (IH Hl Hc).
    change (rstrip d (String a (String b s)))
      with (match rstrip d (String b s) with
            | EmptyString =>
                if Ascii.eqb a d then EmptyString else String a EmptyString
            | r => String a r
            end).
    rewrite IH. reflexivity.
Qed.

Lemma rstrip_idem (d : ascii) (s : string) :
  rstrip d (rstrip d s) = rstrip d s.
Proof.
  induction s as [|a s IH]; [reflexivity|].
  simpl. destruct (rstrip d s) as [|b r] eqn:E.
  - destruct (Ascii.eqb a d) eqn:Ea; simpl; [reflexivity|].
    rewrite Ea. reflexivity.
  - change (rstrip d (String a (String b r)))
      with (match rstrip d (String b r) with
            | EmptyString =>
                if Ascii.eqb a d then EmptyString else String a EmptyString
            | r' => String a r'
            end).
    rewrite IH. reflexivity.
Qed.

(** The loop computes [rstrip], except that it raises where [rstrip]
    leaves nothing. *)
Lemma strip_trailing_dashes_rstrip (s : string) :
  strip_trailing_dashes s =
    if is_empty (rstrip dash s) then Raise IndexError
    else Ok (rstrip dash s).
Proof.
  funelim (strip_trailing_dashes s).
  - match goal with
    | E : last_index _ = Raise _ |- _ =>
        destruct (last_index_raise _ _ E) as [-> ->]
    end.
    reflexivity.
  - match goal with
    | E : last_index _ = Ok _, Q : Ascii.eqb _ dash = true |- _ =>
        rewrite (rstrip_last_eq dash _ _ E Q)
    end.
    assumption.
  - match goal with
    | E : last_index _ = Ok _, Q : Ascii.eqb _ dash = false |- _ =>
        rewrite (rstrip_last_ne dash _ _ E Q); clear - E
    end.
    destruct site_name; [discriminate|reflexivity].
Qed.

Lemma lower_char_site_name_class (c : ascii) :
  site_name_class c = true -> lower_char c = c.
Proof.
  destruct c as [[] [] [] [] [] [] [] []]; vm_compute; intros H;
    try reflexivity; discriminate H.
Qed.

Lemma lower_fixed (s : string) :
  string_forallb site_name_class s = true -> lower s = s.
Proof.
  induction s as [|c s IH]; simpl; [reflexivity|].
  intros [Hc Hs]%andb_prop.
  rewrite (lower_char_site_name_class c Hc), (IH Hs). reflexivity.
Qed.

Lemma re_sub_outside_fixed (keep : ascii -> bool) (s : string) :
  string_forallb keep s = true -> re_sub_outside keep s = s.
Proof.
  induction s as [|c s IH]; simpl; [reflexivity|].
  intros [Hc Hs]%andb_prop. rewrite Hc, (IH Hs). reflexivity.
Qed.

Lemma re_sub_outside_forallb (keep : ascii -> bool) (s : string) :
  string_forallb keep (re_sub_outside keep s) = true.
Proof.
  induction s as [|c s IH]; simpl; [reflexivity|].
  destruct (keep c) eqn:Hc; simpl; [rewrite Hc|]; exact IH.
Qed.

Lemma rstrip_forallb (p : ascii -> bool) (d : ascii) (s : string) :
  string_forallb p s = true -> string_forallb p (rstrip d s) = true.
Proof.
  induction s as [|c s IH]; simpl; [reflexivity|].
  intros [Hc Hs]%andb_prop. specialize (IH Hs).
  destruct (rstrip d s) as [|b r].
  - destruct (Ascii.eqb c d); simpl; [reflexivity|].
    rewrite Hc. reflexivity.
  - change (string_forallb p (String c (String b r)))
      with (p c && string_forallb p (String b r)).
    rewrite Hc, IH. reflexivity.
Qed.

Lemma slice_to_fixed (n : nat) (s : string) :
  String.length s <= n -> slice_to n s = s.
Proof.
  revert n. induction s as [|c s IH]; intros [|n]; simpl; try reflexivity.
  - lia.
  - intros H. rewrite IH by lia. reflexivity.
Qed.

Lemma slice_to_length (n : nat) (s : string) :
  String.length (slice_to n s) <= n.
Proof.
  revert s. induction n as [|n IH]; intros [|c s]; simpl; try lia.
  specialize (IH s). lia.
Qed.

Lemma lower_length (s : string) : String.length (lower s) = String.length s.
Proof. induction s as [|c s IH]; simpl; [reflexivity|]. rewrite IH. reflexivity. Qed.

Lemma re_sub_outside_length (keep : ascii -> bool) (s : string) :
  String.length (re_sub_outside keep s) <= String.length s.
Proof.
  induction s as [|c s IH]; simpl; [lia|].
  destruct (keep c); simpl; lia.
Qed.

Lemma rstrip_length (d : ascii) (s : string) :
  String.length (rstrip d s) <= String.length s.
Proof.
  induction s as [|c s IH]; simpl; [lia|].
  destruct (rstrip d s) as [|b r].
  - destruct (Ascii.eqb c d); simpl; lia.
  - simpl in *. lia.
Qed.

(** An output of the rule is a fixed point of the rule. *)
Lemma spec_site_name_fixed (name : string) :
  spec_site_name (spec_site_name name) = spec_site_name name.
Proof.
  unfold spec_site_name.
  set (t := re_sub_outside site_name_class (lower (slice_to 40 name))).
  assert (Hall : string_forallb site_name_class (rstrip dash t) = true).
  { apply rstrip_forallb. apply re_sub_outside_forallb. }
  assert (Hlen : String.length (rstrip dash t) <= 40).
  { pose proof (rstrip_length dash t).
    pose proof (re_sub_outside_length site_name_class (lower (slice_to 40 name))).
    pose proof (lower_length (slice_to 40 name)).
    pose proof (slice_to_length 40 name).
    subst t. lia. }
  rewrite (slice_to_fixed 40 _ Hlen), (lower_fixed _ Hall),
    (re_sub_outside_fixed _ _ Hall).
  apply rstrip_idem.
Qed.

Lemma derive_site_name_rstrip (name : string) :
  derive_site_name name =
    if is_empty (spec_site_name name) then Raise IndexError
    else Ok (spec_site_name name).
Proof. apply strip_trailing_dashes_rstrip. Qed.

Lemma derive_site_name_ok (name r : string) :
  derive_site_name name = Ok r ->
  r = spec_site_name name /\ is_empty r = false.
Proof.
  rewrite derive_site_name_rstrip.
  destruct (is_empty (spec_site_name name)) eqn:E; [discriminate|].
  intros [= <-]. split; [reflexivity|exact E].
Qed.

(** ** Site name: claims C6 and C7 *)


(** C7: the derivation is idempotent where it is defined: a derived
    site name derives to itself. *)
Theorem derive_site_name_idempotent (name r : string) :
  derive_site_name name = Ok r -> derive_site_name r = Ok r.
Proof.
  intros H. destruct (derive_site_name_ok _ _ H) as [-> Hne].
  rewrite derive_site_name_rstrip, spec_site_name_fixed, Hne.
  reflexivity.
Qed.

Lemma derive_site_name_idempotent_witness :
  derive_site_name "My--Bot---" = Ok "my--bot"
  /\ derive_site_name "my--bot" = Ok "my--bot".
Proof.
  assert (H : derive_site_name "My--Bot---" = Ok "my--bot") by reflexivity.
  split; [exact H|].
  exact (derive_site_name_idempotent "My--Bot---" "my--bot" H).
Defined.

(** ** Template resolver: claims C2, C3 and C9 *)

Ltac run_M :=
  unfold mbind, M_bind, mret, M_ret, external, raise, lift.

Lemma retrieve_200 (requests_get : string -> result http_response)
    (response : http_response)
    (version language kind : string) (tr : list event) :
  requests_get template_root_url = Ok response ->
  status_code response = 200%Z ->
  (version = "v3" \/ kind <> "function") ->
  exists zip_url template_name,
    retrieve_bot_template_link requests_get version language kind tr
      = (tr ++ [EvHttpGet template_root_url], Ok (zip_url, template_name))
    /\ spec_template_name version kind = Some template_name
    /\ (language = "Csharp" ->
        zip_url = strip quote (text response) +:+ csharp_archive version kind)
    /\ (language = "Javascript" ->
        zip_url = strip quote (text response)
                  +:+ javascript_archive version kind)
    /\ (language <> "Csharp" -> language <> "Javascript" ->
        zip_url = strip quote (text response)).
Proof.
  intros Hget Hst Hcase.
  unfold retrieve_bot_template_link, spec_template_name, csharp_archive,
    javascript_archive, is_v3, is_function.
  run_M. rewrite Hget, Hst. simpl negb. cbv iota.
  destruct (String.eqb_spec version "v3") as [Hv|Hv];
    destruct (String.eqb_spec kind "function") as [Hk|Hk];
    try (exfalso; destruct Hcase; contradiction);
    destruct (String.eqb_spec language "Csharp") as [Hc|Hc];
    destruct (String.eqb_spec language "Javascript") as [Hj|Hj];
    try (exfalso; rewrite Hc in Hj; discriminate Hj);
    eexists _, _; (split; [reflexivity|]); (split; [reflexivity|]);
    repeat split; intros; try reflexivity; try contradiction;
    try (exfalso; subst language; discriminate).
Qed.

Lemma not_v4_function (version kind : string) :
  ~ (version <> "v3" /\ kind = "function") ->
  version = "v3" \/ kind <> "function".
Proof.
  intros H. destruct (String.eqb_spec version "v3") as [Hv|Hv]; [now left|].
  right. intros Hk. apply H. split; assumption.
Qed.

(** C3: when the lookup of the CDN root succeeds (status 200), every
    (version, language, kind) other than a function bot on a version
    that is not v3 (the v4 case) resolves without error: the template
    file is the one of the version/kind table, and for Csharp and for
    Javascript the archive of that row is appended to the quote-stripped
    root. *)
Theorem retrieve_bot_template_link_table
    (requests_get : string -> result http_response)
    (response : http_response)
    (version language kind : string) (tr : list event) :
  requests_get template_root_url = Ok response ->
  status_code response = 200%Z ->
  ~ (version <> "v3" /\ kind = "function") ->
  exists zip_url template_name,
    retrieve_bot_template_link requests_get version language kind tr
      = (tr ++ [EvHttpGet template_root_url], Ok (zip_url, template_name))
    /\ spec_template_name version kind = Some template_name
    /\ (language = "Csharp" ->
        zip_url = strip quote (text response) +:+ csharp_archive version kind)
    /\ (language = "Javascript" ->
        zip_url = strip quote (text response)
                  +:+ javascript_archive version kind).
Proof.
  intros Hget Hst Hcase.
  destruct (retrieve_200 requests_get response version language kind tr
              Hget Hst (not_v4_function _ _ Hcase))
    as (zip_url & template_name & Hrun & Ht & Hc & Hj & _).
  exists zip_url, template_name. repeat split; assumption.
Qed.

Lemma retrieve_bot_template_link_table_witness :
  exists zip_url template_name,
    retrieve_bot_template_link get_ok "v4" "Javascript" "sdk" []
      = ([] ++ [EvHttpGet template_root_url], Ok (zip_url, template_name))
    /\ spec_template_name "v4" "sdk" = Some template_name
    /\ ("Javascript" = "Csharp" ->
        zip_url = strip quote (text response_ok) +:+ csharp_archive "v4" "sdk")
    /\ ("Javascript" = "Javascript" ->
        zip_url = strip quote (text response_ok)
                  +:+ javascript_archive "v4" "sdk").
Proof.
  apply (retrieve_bot_template_link_table get_ok response_ok
           "v4" "Javascript" "sdk" []).
  - reflexivity.
  - reflexivity.
  - intros [_ H]. discriminate H.
Defined.

(** C9: for a language that is neither Csharp nor Javascript, and a
    (version, kind) other than a function bot on a version that is not
    v3, a successful lookup returns the quote-stripped root itself as the
    artifact URL, with no archive name appended. *)
Theorem retrieve_bot_template_link_other_language
    (requests_get : string -> result http_response)
    (response : http_response)
    (version language kind : string) (tr : list event) :
  requests_get template_root_url = Ok response ->
  status_code response = 200%Z ->
  language <> "Csharp" -> language <> "Javascript" ->
  ~ (version <> "v3" /\ kind = "function") ->
  exists template_name,
    retrieve_bot_template_link requests_get version language kind tr
      = (tr ++ [EvHttpGet template_root_url],
         Ok (strip quote (text response), template_name)).
Proof.
  intros Hget Hst Hc Hj Hcase.
  destruct (retrieve_200 requests_get response version language kind tr
              Hget Hst (not_v4_function _ _ Hcase))
    as (zip_url & template_name & Hrun & _ & _ & _ & Hother).
  exists template_name. rewrite Hrun, (Hother Hc Hj). reflexivity.
Qed.

Lemma retrieve_bot_template_link_other_language_witness :
  exists template_name,
    retrieve_bot_template_link get_ok "v3" "Python" "function" []
      = ([] ++ [EvHttpGet template_root_url],
         Ok (strip quote (text response_ok), template_name)).
Proof.
  apply (retrieve_bot_template_link_other_language
           get_ok response_ok "v3" "Python" "function" []).
  - reflexivity.
  - reflexivity.
  - discriminate.
  - discriminate.
  - intros [H _]. apply H. reflexivity.
Defined.

(** C2, as the code has it: when the lookup of the CDN root succeeds
    (status 200), resolving a function bot for a version other than v3
    fails, for every language, with the CLIError "Function bot creation
    is not supported for v4 bot sdk."; [create_app] then stops with that
    error after the HTTP lookup alone, before any deployment call. *)
Theorem v4_function_unsupported
    (requests_get : string -> result http_response)
    (response : http_response)
    (json_dumps : gmap string pyval -> string) (dir_path : string)
    (path_join : string -> string -> string)
    (deployment : deploy_call -> result pyval)
    (create_bot_json : string -> string -> string -> result pyval)
    (a : create_app_args) (tr : list event) :
  requests_get template_root_url = Ok response ->
  status_code response = 200%Z ->
  version a <> "v3" -> kind a = "function" ->
  retrieve_bot_template_link requests_get (version a) (language a) (kind a) tr
    = (tr ++ [EvHttpGet template_root_url], Raise v4_function_error)
  /\ create_app requests_get json_dumps dir_path path_join deployment
       create_bot_json a tr
    = (tr ++ [EvHttpGet template_root_url], Raise v4_function_error).
Proof.
  intros Hget Hst Hv Hk.
  apply String.eqb_neq in Hv.
  unfold create_app, retrieve_bot_template_link. run_M.
  rewrite Hget, Hst, Hk, Hv. split; reflexivity.
Qed.

Lemma v4_function_unsupported_witness :
  retrieve_bot_template_link get_ok "v4" "Csharp" "function" []
    = ([] ++ [EvHttpGet template_root_url], Raise v4_function_error)
  /\ create_app get_ok dumps_sample "/opt/botservice" join_sample
       deployment_sample create_bot_json_sample
       (sample_args "my-bot" "function" "v4" "Csharp") []
    = ([] ++ [EvHttpGet template_root_url], Raise v4_function_error).
Proof.
  apply (v4_function_unsupported get_ok response_ok dumps_sample
           "/opt/botservice" join_sample deployment_sample
           create_bot_json_sample
           (sample_args "my-bot" "function" "v4" "Csharp") []).
  - reflexivity.
  - reflexivity.
  - discriminate.
  - reflexivity.
Defined.

(** C2 as stated fails: when the lookup answers with status 500, the
    resolver raises the CDN error for (v4, Csharp, function), which is
    not the unsupported-configuration error. *)
Lemma v4_function_lookup_failure :
  retrieve_bot_template_link get_unavailable "v4" "Csharp" "function" []
    = ([EvHttpGet template_root_url], Raise cdn_error)
  /\ cdn_error <> v4_function_error.
Proof. split; [reflexivity|discriminate]. Qed.

(** ** create_app: claims C1, C4 and C8 *)

Lemma normalized_kind_function (kind : string) :
  kind <> "function" ->
  (if String.eqb kind "webapp" then "sdk" else kind) <> "function".
Proof.
  intros Hk. destruct (String.eqb_spec kind "webapp"); [discriminate|exact Hk].
Qed.

(** C1, on the code: for a resource name whose derivation leaves
    nothing, [create_app] (lookup succeeded, configuration supported)
    stops at [site_name[-1]] with an IndexError, after the HTTP lookup
    and before any deployment call.  The exception is not a validation
    error of the CLI ([CLIError]). *)
Theorem create_app_empty_site_name
    (requests_get : string -> result http_response)
    (response : http_response)
    (json_dumps : gmap string pyval -> string) (dir_path : string)
    (path_join : string -> string -> string)
    (deployment : deploy_call -> result pyval)
    (create_bot_json : string -> string -> string -> result pyval)
    (a : create_app_args) (tr : list event) :
  requests_get template_root_url = Ok response ->
  status_code response = 200%Z ->
  ~ (version a <> "v3" /\ kind a = "function") ->
  is_empty (spec_site_name (resource_name a)) = true ->
  create_app requests_get json_dumps dir_path path_join deployment
    create_bot_json a tr
    = (tr ++ [EvHttpGet template_root_url], Raise IndexError).
Proof.
  intros Hget Hst Hcase Hempty.
  assert (Hcase' : version a = "v3" \/
            (if String.eqb (kind a) "webapp" then "sdk" else kind a)
              <> "function").
  { destruct (not_v4_function _ _ Hcase) as [Hv|Hk]; [now left|right].
    apply normalized_kind_function, Hk. }
  destruct (retrieve_200 requests_get response (version a) (language a) _ tr
              Hget Hst Hcase')
    as (zip_url & template_name & Hrun & _).
  unfold create_app. run_M. rewrite Hrun.
  rewrite derive_site_name_rstrip, Hempty. reflexivity.
Qed.

Lemma create_app_empty_site_name_witness :
  create_app get_ok dumps_sample "/opt/botservice" join_sample
    deployment_sample create_bot_json_sample
    (sample_args "----" "webapp" "v4" "Csharp") []
    = ([] ++ [EvHttpGet template_root_url], Raise IndexError).
Proof.
  apply (create_app_empty_site_name get_ok response_ok dumps_sample
           "/opt/botservice" join_sample deployment_sample
           create_bot_json_sample
           (sample_args "----" "webapp" "v4" "Csharp") []).
  - reflexivity.
  - reflexivity.
  - intros [_ H]. discriminate H.
  - reflexivity.
Defined.

(** On the other names the call goes through: [create_app] hands the
    wrapped parameter map of [build_params], serialised, to
    [deploy_arm_template], and then formats the bot. *)
Lemma create_app_deploys
    (requests_get : string -> result http_response)
    (response : http_response)
    (json_dumps : gmap string pyval -> string) (dir_path : string)
    (path_join : string -> string -> string)
    (deployment : deploy_call -> result pyval)
    (create_bot_json : string -> string -> string -> result pyval)
    (a : create_app_args) (tr : list event) :
  requests_get template_root_url = Ok response ->
  status_code response = 200%Z ->
  ~ (version a <> "v3" /\ kind a = "function") ->
  is_empty (spec_site_name (resource_name a)) = false ->
  exists zip_url template_name call,
    call_parameters call =
      [[json_dumps
          (build_params a
             (if String.eqb (kind a) "webapp" then "sdk" else kind a)
             zip_url (spec_site_name (resource_name a)))]]
    /\ call_template_file call = path_join dir_path template_name
    /\ create_app requests_get json_dumps dir_path path_join deployment
         create_bot_json a tr
       = match deployment call with
         | Ok _ =>
             (tr ++ [EvHttpGet template_root_url] ++ [EvDeploy call]
                 ++ [EvCreateBotJson (resource_group_name a) (resource_name a)
                       (password a)],
              create_bot_json (resource_group_name a) (resource_name a)
                (password a))
         | Raise e =>
             (tr ++ [EvHttpGet template_root_url] ++ [EvDeploy call], Raise e)
         end.
Proof.
  intros Hget Hst Hcase Hne.
  assert (Hcase' : version a = "v3" \/
            (if String.eqb (kind a) "webapp" then "sdk" else kind a)
              <> "function").
  { destruct (not_v4_function _ _ Hcase) as [Hv|Hk]; [now left|right].
    apply normalized_kind_function, Hk. }
  destruct (retrieve_200 requests_get response (version a) (language a) _ tr
              Hget Hst Hcase')
    as (zip_url & template_name & Hrun & _).
  exists zip_url, template_name.
  exists {| call_resource_group_name := resource_group_name a;
            call_template_file := path_join dir_path template_name;
            call_parameters :=
              [[json_dumps
                  (build_params a
                     (if String.eqb (kind a) "webapp" then "sdk" else kind a)
                     zip_url (spec_site_name (resource_name a)))]];
            call_deployment_name := resource_name a;
            call_mode := "Incremental" |}.
  split; [reflexivity|]. split; [reflexivity|].
  unfold create_app. run_M. rewrite Hrun.
  rewrite derive_site_name_rstrip, Hne.
  cbv beta iota.
  match goal with |- context [deployment ?c] => destruct (deployment c) end;
    rewrite <- ?app_assoc; reflexivity.
Qed.

Lemma build_paramsdict_scalar (a : create_app_args)
    (kind zip_url site_name : string) :
  map_Forall (fun _ v => is_scalar v = true)
    (build_paramsdict a kind zip_url site_name).
Proof.
  assert (H0 : map_Forall (fun _ v => is_scalar v = true)
                 (initial_paramsdict a kind zip_url site_name)).
  { unfold initial_paramsdict.
    repeat (apply map_Forall_insert_2; [reflexivity|]).
    apply map_Forall_empty. }
  assert (H1 : map_Forall (fun _ v => is_scalar v = true)
                 (add_description a
                    (initial_paramsdict a kind zip_url site_name))).
  { unfold add_description. destruct (description a) as [d|]; [|exact H0].
    destruct (truthy (PStr d)); [|exact H0].
    apply map_Forall_insert_2; [reflexivity|exact H0]. }
  unfold build_paramsdict.
  destruct (String.eqb (version a) "v3"); [|exact H1].
  unfold add_v3_parameters.
  destruct (storageAccountName a) as [s|]; [destruct (truthy (PStr s))|];
    repeat (apply map_Forall_insert_2; [reflexivity|]); exact H1.
Qed.

(** C8: every entry of the parameter map is the raw value of its key
    wrapped once as [{"value": raw}]; the raw value is a string or a
    boolean, so it is never an already wrapped object. *)
Theorem build_params_wrapped_once (a : create_app_args)
    (kind zip_url site_name k : string) (w : pyval) :
  build_params a kind zip_url site_name !! k = Some w ->
  exists v,
    build_paramsdict a kind zip_url site_name !! k = Some v
    /\ w = PDict {[ "value" := v ]}
    /\ is_scalar v = true
    /\ (forall u, v <> PDict {[ "value" := u ]}).
Proof.
  unfold build_params, wrap_values. rewrite lookup_fmap.
  destruct (build_paramsdict a kind zip_url site_name !! k) as [v|] eqn:E;
    [|discriminate].
  intros [= <-]. exists v.
  pose proof (build_paramsdict_scalar a kind zip_url site_name k v E) as Hs.
  simpl in Hs.
  repeat split; try assumption; try reflexivity.
  intros u ->. discriminate Hs.
Qed.

Lemma build_params_wrapped_once_witness :
  exists v,
    build_paramsdict (sample_args "my-bot" "webapp" "v3" "Csharp")
      "sdk" "https://cdn.example/bot.zip" "my-bot" !! "siteName" = Some v
    /\ PDict {[ "value" := PStr "my-bot" ]} = PDict {[ "value" := v ]}
    /\ is_scalar v = true
    /\ (forall u, v <> PDict {[ "value" := u ]}).
Proof.
  apply (build_params_wrapped_once (sample_args "my-bot" "webapp" "v3" "Csharp")
           "sdk" "https://cdn.example/bot.zip" "my-bot" "siteName"
           (PDict {[ "value" := PStr "my-bot" ]})).
  vm_compute. reflexivity.
Defined.

Lemma add_description_lookup (a : create_app_args)
    (paramsdict : gmap string pyval) (k : string) :
  k <> "description" ->
  add_description a paramsdict !! k = paramsdict !! k.
Proof.
  intros Hk. unfold add_description.
  destruct (description a) as [d|]; [|reflexivity].
  destruct (truthy (PStr d)); [|reflexivity].
  apply lookup_insert_ne. congruence.
Qed.

Lemma initial_paramsdict_v3_only (a : create_app_args)
    (kind zip_url site_name k : string) :
  In k v3_only_keys ->
  initial_paramsdict a kind zip_url site_name !! k = None.
Proof.
  intros Hk. unfold initial_paramsdict, v3_only_keys in *. simpl in Hk.
  repeat (destruct Hk as [<-|Hk]; [vm_compute; reflexivity|]).
  contradiction.
Qed.

Lemma add_v3_parameters_keys (a : create_app_args)
    (paramsdict : gmap string pyval) (k : string) :
  In k v3_only_keys -> is_Some (add_v3_parameters a paramsdict !! k).
Proof.
  intros Hk. unfold add_v3_parameters, v3_only_keys in *. simpl in Hk.
  destruct (storageAccountName a) as [s|]; [destruct (truthy (PStr s))|];
    repeat (destruct Hk as [<-|Hk]; [simplify_map_eq; eauto|]);
    contradiction.
Qed.

(** C4: with version v3 the parameter map has each of createNewStorage,
    storageAccountResourceId, storageAccountName, useAppInsights and
    appInsightsLocation; with version v4 it has none of them. *)
Theorem build_params_v3_only_keys (a : create_app_args)
    (kind zip_url site_name k : string) :
  In k v3_only_keys ->
  (version a = "v3" ->
     is_Some (build_params a kind zip_url site_name !! k))
  /\ (version a = "v4" ->
     build_params a kind zip_url site_name !! k = None).
Proof.
  intros Hk. unfold build_params, wrap_values, build_paramsdict.
  rewrite lookup_fmap. split; intros Hv; rewrite Hv; simpl.
  - destruct (add_v3_parameters_keys a
                (add_description a
                   (initial_paramsdict a kind zip_url site_name)) k Hk)
      as [v ->].
    simpl. eauto.
  - rewrite add_description_lookup, (initial_paramsdict_v3_only _ _ _ _ _ Hk).
    + reflexivity.
    + intros ->. unfold v3_only_keys in Hk. simpl in Hk.
      repeat (destruct Hk as [Hk|Hk]; [discriminate Hk|]). contradiction.
Qed.

Lemma build_params_v3_only_keys_witness :
  is_Some (build_params (sample_args "my-bot" "webapp" "v3" "Csharp")
             "sdk" "https://cdn.example/bot.zip" "my-bot"
           !! "useAppInsights")
  /\ build_params (sample_args "my-bot" "webapp" "v4" "Csharp")
       "sdk" "https://cdn.example/bot.zip" "my-bot" !! "useAppInsights" = None.
Proof.
  assert (Hk : In "useAppInsights" v3_only_keys).
  { unfold v3_only_keys. simpl. tauto. }
  split.
  - apply (proj1 (build_params_v3_only_keys
                    (sample_args "my-bot" "webapp" "v3" "Csharp")
                    "sdk" "https://cdn.example/bot.zip" "my-bot"
                    "useAppInsights" Hk)).
    reflexivity.
  - apply (proj2 (build_params_v3_only_keys
                    (sample_args "my-bot" "webapp" "v4" "Csharp")
                    "sdk" "https://cdn.example/bot.zip" "my-bot"
                    "useAppInsights" Hk)).
    reflexivity.
Defined.

(** ** Parameter merge: claims C5 and C10 *)

Lemma truthy_dict_false (d : gmap string pyval) :
  truthy (PDict d) = false -> d = ∅.
Proof.
  simpl. intros H. apply map_size_empty_iff.
  destruct (size d); [reflexivity|discriminate H].
Qed.

Lemma merge_dict (upd : gmap string pyval -> list pyval -> result (gmap string pyval))
    (P d : gmap string pyval) :
  exists m,
    (if truthy (PDict d) then dict_update upd P (PDict d) else Ok P) = Ok m
    /\ forall k, m !! k = match d !! k with Some v => Some v | None => P !! k end.
Proof.
  destruct (truthy (PDict d)) eqn:E.
  - exists (d ∪ P). split; [reflexivity|]. intros k.
    rewrite lookup_union. destruct (d !! k), (P !! k); reflexivity.
  - exists P. split; [reflexivity|]. intros k.
    rewrite (truthy_dict_false d E), lookup_empty. reflexivity.
Qed.

Lemma merge_item_well_formed (parse : string -> result pyval)
    (upd : gmap string pyval -> list pyval -> result (gmap string pyval))
    (P : gmap string pyval) (item : string) :
  well_formed parse item = true ->
  exists m,
    merge_item parse upd P item = Ok m
    /\ forall k, m !! k =
         match item_value parse k item with
         | Some v => Some v
         | None => P !! k
         end.
Proof.
  unfold well_formed, merge_item, _try_parse_json_object, item_value,
    contribution, get_parameters.
  destruct (parse item) as [[| | | | |d]|[]]; try discriminate.
  - destruct (d !! "parameters") as [[| | | | |p]|] eqn:E; try discriminate;
      intros _.
    + exact (merge_dict upd P p).
    + exact (merge_dict upd P d).
  - intros _. exists P. split; reflexivity.
Qed.

Lemma merge_params_well_formed (parse : string -> result pyval)
    (upd : gmap string pyval -> list pyval -> result (gmap string pyval))
    (params : list string) :
  Forall (fun item => well_formed parse item = true) params ->
  forall P, exists m,
    merge_params parse upd P params = Ok m
    /\ forall k, m !! k =
         match latest_value parse k params with
         | Some v => Some v
         | None => P !! k
         end.
Proof.
  induction 1 as [|item rest Hitem _ IH]; intros P.
  - exists P. split; reflexivity.
  - destruct (merge_item_well_formed parse upd P item Hitem) as (m1 & E1 & L1).
    destruct (IH m1) as (m & E & L).
    exists m. simpl. rewrite E1. simpl. split; [exact E|].
    intros k. rewrite L, L1.
    destruct (latest_value parse k rest); reflexivity.
Qed.

Lemma latest_value_app (parse : string -> result pyval) (k : string)
    (l1 l2 : list string) :
  latest_value parse k (l1 ++ l2) =
    match latest_value parse k l2 with
    | Some v => Some v
    | None => latest_value parse k l1
    end.
Proof.
  induction l1 as [|item l1 IH]; simpl.
  - destruct (latest_value parse k l2); reflexivity.
  - rewrite IH. destruct (latest_value parse k l2); reflexivity.
Qed.

Lemma merge_lists_well_formed (parse : string -> result pyval)
    (upd : gmap string pyval -> list pyval -> result (gmap string pyval))
    (lists : list (list string)) :
  Forall (Forall (fun item => well_formed parse item = true)) lists ->
  forall P, exists m,
    merge_lists parse upd P lists = Ok m
    /\ forall k, m !! k =
         match latest_value parse k (concat lists) with
         | Some v => Some v
         | None => P !! k
         end.
Proof.
  induction 1 as [|params rest Hparams _ IH]; intros P.
  - exists P. split; reflexivity.
  - destruct (merge_params_well_formed parse upd params Hparams P)
      as (m1 & E1 & L1).
    destruct (IH m1) as (m & E & L).
    exists m. simpl. rewrite E1. simpl. split; [exact E|].
    intros k. rewrite L, L1, latest_value_app.
    destruct (latest_value parse k (concat rest)); reflexivity.
Qed.

(** C5, as the code has it: for every list of parameter-source lists
    whose entries are unparsable strings (the parser raises CLIError) or
    JSON objects whose "parameters" member, if any, is an object, the
    merge returns a map without raising; an unparsable entry contributes
    nothing, an object with a "parameters" member contributes the
    members of that nested object, any other object contributes its own
    members, and the value of a key is the one of the last entry
    contributing it.  In particular the three sources
    {"parameters":{"a":1}}, {"a":2,"b":3} and [not json] merge to
    {"a":2,"b":3} when the parser reads the two objects and raises
    CLIError on the third. *)
Theorem process_parameters_merge (parse : string -> result pyval)
    (upd : gmap string pyval -> list pyval -> result (gmap string pyval)) :
  (forall lists : list (list string),
      Forall (Forall (fun item => well_formed parse item = true)) lists ->
      exists m,
        process_parameters parse upd (Some lists) = Ok m
        /\ forall k, m !! k = latest_value parse k (concat lists))
  /\ (forall msg : string,
      parse json_a = Ok (PDict {[ "parameters" := PDict {[ "a" := PInt 1 ]} ]}) ->
      parse json_b = Ok (PDict {[ "a" := PInt 2; "b" := PInt 3 ]}) ->
      parse "not json" = Raise (CLIError msg) ->
      process_parameters parse upd (Some [[json_a]; [json_b]; ["not json"]])
        = Ok {[ "a" := PInt 2; "b" := PInt 3 ]}).
Proof.
  split.
  - intros lists Hwf.
    destruct (merge_lists_well_formed parse upd lists Hwf ∅) as (m & E & L).
    exists m. split; [exact E|].
    intros k. rewrite L, lookup_empty.
    destruct (latest_value parse k (concat lists)); reflexivity.
  - intros msg Ha Hb Hn.
    assert (Ea : forall Q, merge_item parse upd Q json_a
                           = Ok ({[ "a" := PInt 1 ]} ∪ Q)).
    { intros Q. unfold merge_item, _try_parse_json_object. rewrite Ha.
      reflexivity. }
    assert (Eb : forall Q, merge_item parse upd Q json_b
                           = Ok ({[ "a" := PInt 2; "b" := PInt 3 ]} ∪ Q)).
    { intros Q. unfold merge_item, _try_parse_json_object. rewrite Hb.
      reflexivity. }
    assert (En : forall Q, merge_item parse upd Q "not json" = Ok Q).
    { intros Q. unfold merge_item, _try_parse_json_object. rewrite Hn.
      reflexivity. }
    unfold process_parameters, default, id.
    cbn [from_option merge_lists merge_params].
    rewrite Ea. cbn [mbind result_bind]. rewrite Eb.
    cbn [mbind result_bind]. rewrite En. cbn [mbind result_bind].
    reflexivity.
Qed.

Lemma process_parameters_merge_witness :
  (exists m,
      process_parameters sample_parse update_sample
        (Some [[json_a]; [json_b]; ["not json"]]) = Ok m
      /\ forall k, m !! k =
           latest_value sample_parse k
             (concat [[json_a]; [json_b]; ["not json"]]))
  /\ process_parameters sample_parse update_sample
       (Some [[json_a]; [json_b]; ["not json"]])
     = Ok {[ "a" := PInt 2; "b" := PInt 3 ]}.
Proof.
  destruct (process_parameters_merge sample_parse update_sample) as [H1 H2].
  split.
  - apply H1. repeat constructor.
  - apply (H2 "Expecting value"); reflexivity.
Defined.

(** C5 as stated fails for an entry that parses but is not such an
    object: {"parameters":5} makes [parameters.update(5)] raise
    TypeError, and the array [1] raises AttributeError at [.get]; the
    merge raises instead of merging or skipping. *)
Lemma non_object_entries_raise :
  (sample_parse_values json_p5 = Ok (PDict {[ "parameters" := PInt 5 ]})
   /\ process_parameters sample_parse_values update_sample
        (Some [[json_p5]]) = Raise TypeError)
  /\ (sample_parse_values "[1]" = Ok (PList [PInt 1])
      /\ process_parameters sample_parse_values update_sample
           (Some [["[1]"]]) = Raise AttributeError).
Proof. repeat split; vm_compute; reflexivity. Qed.

(** C10 as stated fails: the raw strings 0, false and null parse to
    falsy values, and the merge raises AttributeError on each of them
    (only a dict has [get]). *)
Lemma falsy_non_object_entry_raises :
  (sample_parse "0" = Ok (PInt 0) /\ truthy (PInt 0) = false
   /\ process_parameters sample_parse update_sample (Some [["0"]])
      = Raise AttributeError)
  /\ (sample_parse "false" = Ok (PBool false) /\ truthy (PBool false) = false
   /\ process_parameters sample_parse update_sample (Some [["false"]])
      = Raise AttributeError)
  /\ (sample_parse "null" = Ok PNone /\ truthy PNone = false
   /\ process_parameters sample_parse update_sample (Some [["null"]])
      = Raise AttributeError).
Proof. repeat split; vm_compute; reflexivity. Qed.

(** C10, as the code has it: an entry that parses to an object whose
    selected value (the "parameters" member when present, the object
    itself otherwise) is falsy, such as the empty object, contributes
    nothing to the merged map and does not make the merge raise, exactly
    like an unparsable entry. *)
Theorem falsy_object_entry_skipped (parse : string -> result pyval)
    (upd : gmap string pyval -> list pyval -> result (gmap string pyval))
    (P : gmap string pyval) (item : string) (d : gmap string pyval) :
  parse item = Ok (PDict d) ->
  truthy (default (PDict d) (d !! "parameters")) = false ->
  merge_item parse upd P item = Ok P
  /\ (forall item' msg, parse item' = Raise (CLIError msg) ->
        merge_item parse upd P item' = merge_item parse upd P item)
  /\ process_parameters parse upd (Some [[item]]) = Ok ∅.
Proof.
  intros Hp Hf.
  assert (Hitem : forall Q, merge_item parse upd Q item = Ok Q).
  { intros Q. unfold merge_item, _try_parse_json_object, get_parameters.
    rewrite Hp. cbn [mbind result_bind]. rewrite Hf. reflexivity. }
  split; [apply Hitem|]. split.
  - intros item' msg Hp'. rewrite Hitem.
    unfold merge_item, _try_parse_json_object. rewrite Hp'. reflexivity.
  - unfold process_parameters, default, id.
    cbn [from_option merge_lists merge_params].
    rewrite Hitem. reflexivity.
Qed.

Lemma falsy_object_entry_skipped_witness :
  merge_item sample_parse update_sample {[ "a" := PInt 1 ]} "{}"
    = Ok {[ "a" := PInt 1 ]}
  /\ (forall item' msg, sample_parse item' = Raise (CLIError msg) ->
        merge_item sample_parse update_sample {[ "a" := PInt 1 ]} item'
        = merge_item sample_parse update_sample {[ "a" := PInt 1 ]} "{}")
  /\ process_parameters sample_parse update_sample (Some [["{}"]]) = Ok ∅.
Proof.
  apply (falsy_object_entry_skipped sample_parse update_sample
           {[ "a" := PInt 1 ]} "{}" ∅); reflexivity.
Defined.

(** * Further properties of the module *)

(** ** Site name, storage name and location strings *)

Lemma rstrip_empty_forallb (d : ascii) (s : string) :
  is_empty (rstrip d s) = string_forallb (fun c => Ascii.eqb c d) s.
Proof.
  induction s as [|a s IH]; [reflexivity|].
  simpl. destruct (rstrip d s) as [|b r].
  - simpl in IH. rewrite <- IH, andb_true_r.
    destruct (Ascii.eqb a d); reflexivity.
  - simpl in IH. rewrite <- IH, andb_false_r. reflexivity.
Qed.

Lemma rstrip_last_index (d : ascii) (s : string) :
  is_empty (rstrip d s) = false ->
  exists c, last_index (rstrip d s) = Ok c /\ Ascii.eqb c d = false.
Proof.
  induction s as [|a s IH]; [discriminate|].
  simpl. destruct (rstrip d s) as [|b r].
  - destruct (Ascii.eqb a d) eqn:E; [discriminate|].
    intros _. exists a. split; [reflexivity|exact E].
  - intros _. destruct IH as (c & Hc & Hd); [reflexivity|].
    exists c. split; [|exact Hd].
    change (last_index (String a (String b r)))
      with (last_index (String b r)). exact Hc.
Qed.

Lemma string_forallb_impl (p q : ascii -> bool) (s : string) :
  (forall c, p c = true -> q c = true) ->
  string_forallb p s = true -> string_forallb q s = true.
Proof.
  intros Hpq. induction s as [|c s IH]; simpl; [reflexivity|].
  intros [Hc Hs]%andb_prop. rewrite (Hpq c Hc), (IH Hs). reflexivity.
Qed.

Lemma re_sub_outside_keeps (p keep : ascii -> bool) (s : string) :
  string_forallb p s = true ->
  string_forallb p (re_sub_outside keep s) = true.
Proof.
  induction s as [|c s IH]; simpl; [reflexivity|].
  intros [Hc Hs]%andb_prop.
  destruct (keep c); simpl; [rewrite Hc|]; exact (IH Hs).
Qed.

Lemma string_forallb_and (p q : ascii -> bool) (s : string) :
  string_forallb p s = true -> string_forallb q s = true ->
  string_forallb (fun c => p c && q c) s = true.
Proof.
  induction s as [|c s IH]; simpl; [reflexivity|].
  intros [Hp Hs]%andb_prop [Hq Hs']%andb_prop.
  rewrite Hp, Hq, (IH Hs Hs'). reflexivity.
Qed.

(** X1: a site name that [create_app] derives is a usable host label:
    it is not empty, has at most 40 characters, all of them in
    [a-z0-9-], and it does not end with a dash. *)
Theorem derive_site_name_valid (name r : string) :
  derive_site_name name = Ok r ->
  is_empty r = false
  /\ String.length r <= 40
  /\ string_forallb site_name_class r = true
  /\ exists c, last_index r = Ok c /\ Ascii.eqb c dash = false.
Proof.
  intros H. destruct (derive_site_name_ok _ _ H) as [-> Hne].
  unfold spec_site_name in *.
  set (t := re_sub_outside site_name_class (lower (slice_to 40 name))) in *.
  split; [exact Hne|]. split; [|split].
  - pose proof (rstrip_length dash t).
    pose proof (re_sub_outside_length site_name_class (lower (slice_to 40 name))).
    pose proof (lower_length (slice_to 40 name)).
    pose proof (slice_to_length 40 name).
    subst t. lia.
  - apply rstrip_forallb, re_sub_outside_forallb.
  - apply rstrip_last_index, Hne.
Qed.

Lemma derive_site_name_valid_witness :
  is_empty "my--bot" = false
  /\ String.length "my--bot" <= 40
  /\ string_forallb site_name_class "my--bot" = true
  /\ exists c, last_index "my--bot" = Ok c /\ Ascii.eqb c dash = false.
Proof.
  apply (derive_site_name_valid "My--Bot---" "my--bot"). reflexivity.
Defined.

(** X2: the site-name derivation can only fail with IndexError, and it
    fails exactly when what the regular expression leaves of the
    lowercased 40-character prefix consists of dashes only (the empty
    string included). *)
Theorem derive_site_name_raises_iff (name : string) :
  (forall e, derive_site_name name = Raise e -> e = IndexError)
  /\ (derive_site_name name = Raise IndexError <->
      string_forallb is_dash
        (re_sub_outside site_name_class (lower (slice_to 40 name))) = true).
Proof.
  rewrite derive_site_name_rstrip. unfold spec_site_name, is_dash.
  rewrite rstrip_empty_forallb.
  destruct (string_forallb _ _); split.
  - intros e [= <-]. reflexivity.
  - split; reflexivity.
  - discriminate.
  - split; discriminate.
Qed.

(** X3: the storage account name derived from the resource name has at
    most 24 characters, all of them in [a-z0-9], and deriving again from
    it changes nothing. *)
Theorem derive_storage_name_valid (name : string) :
  String.length (derive_storage_name name) <= 24
  /\ string_forallb storage_name_class (derive_storage_name name) = true
  /\ derive_storage_name (derive_storage_name name) = derive_storage_name name.
Proof.
  assert (Hlen : String.length (derive_storage_name name) <= 24).
  { unfold derive_storage_name.
    pose proof (re_sub_outside_length storage_name_class
                  (lower (slice_to 24 name))).
    pose proof (lower_length (slice_to 24 name)).
    pose proof (slice_to_length 24 name). lia. }
  assert (Hall : string_forallb storage_name_class (derive_storage_name name)
                 = true) by apply re_sub_outside_forallb.
  split; [exact Hlen|]. split; [exact Hall|].
  unfold derive_storage_name at 1.
  rewrite (slice_to_fixed 24 _ Hlen), lower_fixed, re_sub_outside_fixed;
    [reflexivity|exact Hall|].
  apply (string_forallb_impl storage_name_class); [|exact Hall].
  intros c Hc. unfold site_name_class. unfold storage_name_class in Hc.
  rewrite Hc. reflexivity.
Qed.

Lemma lower_char_not_upper (c : ascii) : is_upper (lower_char c) = false.
Proof. destruct c as [[] [] [] [] [] [] [] []]; vm_compute; reflexivity. Qed.

Lemma lower_not_upper (s : string) :
  string_forallb (fun c => negb (is_upper c)) (lower s) = true.
Proof.
  induction s as [|c s IH]; simpl; [reflexivity|].
  rewrite lower_char_not_upper, IH. reflexivity.
Qed.

Lemma lower_fixed_not_upper (s : string) :
  string_forallb (fun c => negb (is_upper c)) s = true -> lower s = s.
Proof.
  induction s as [|c s IH]; simpl; [reflexivity|].
  intros [Hc Hs]%andb_prop. rewrite (IH Hs). unfold lower_char.
  destruct (is_upper c); [discriminate Hc|reflexivity].
Qed.

Lemma not_upper_not_ascii_upper (c : ascii) :
  negb (is_upper c) = true -> negb (in_range 65 90 c) = true.
Proof.
  unfold is_upper. destruct (in_range 65 90 c); [discriminate|reflexivity].
Qed.

(** X4: a normalised location (as stored in serverFarmLocation and
    appInsightsLocation) has no space character and none of the letters
    A-Z, and normalising it again changes nothing. *)
Theorem normalize_location_valid (location : string) :
  string_forallb (fun c => negb (is_space c) && negb (in_range 65 90 c))
    (normalize_location location) = true
  /\ normalize_location (normalize_location location)
     = normalize_location location.
Proof.
  unfold normalize_location, remove_spaces.
  set (keep := fun c : ascii => negb (Ascii.eqb c " "%char)).
  assert (Hs : string_forallb keep (re_sub_outside keep (lower location))
               = true) by apply re_sub_outside_forallb.
  assert (Hu : string_forallb (fun c => negb (is_upper c))
                 (re_sub_outside keep (lower location)) = true).
  { apply re_sub_outside_keeps, lower_not_upper. }
  split.
  - apply (string_forallb_and keep _ _ Hs).
    exact (string_forallb_impl _ _ _ not_upper_not_ascii_upper Hu).
  - rewrite (lower_fixed_not_upper _ Hu). apply re_sub_outside_fixed, Hs.
Qed.

(** ** Stripping the quotes of the lookup response *)

Lemma lstrip_head (c : ascii) (s : string) (a : ascii) (t : string) :
  lstrip c s = String a t -> Ascii.eqb a c = false.
Proof.
  induction s as [|b s IH]; simpl; [discriminate|].
  destruct (Ascii.eqb b c) eqn:E; [exact IH|].
  intros [= <- _]. exact E.
Qed.

Lemma lstrip_length (c : ascii) (s : string) :
  String.length (lstrip c s) <= String.length s.
Proof.
  induction s as [|b s IH]; simpl; [lia|].
  destruct (Ascii.eqb b c); simpl; lia.
Qed.

Lemma lstrip_fixed_head (c : ascii) (a : ascii) (t : string) :
  lstrip c (String a t) = String a t -> Ascii.eqb a c = false.
Proof. apply lstrip_head. Qed.

Lemma rstrip_keeps_head (c a : ascii) (t : string) :
  Ascii.eqb a c = false -> exists t', rstrip c (String a t) = String a t'.
Proof.
  intros Ha. simpl. destruct (rstrip c t) as [|b r].
  - rewrite Ha. eexists. reflexivity.
  - eexists. reflexivity.
Qed.

Lemma rstrip_snoc (c : ascii) (s : string) :
  rstrip c (s +:+ String c EmptyString) = rstrip c s.
Proof.
  induction s as [|a s IH]; simpl.
  - rewrite Ascii.eqb_refl. reflexivity.
  - rewrite IH. reflexivity.
Qed.

Lemma lstrip_not_head (c a : ascii) (t : string) :
  Ascii.eqb a c = false -> lstrip c (String a t) = String a t.
Proof. intros Ha. simpl. rewrite Ha. reflexivity. Qed.

(** X5: what [strip] returns neither starts nor ends with the stripped
    character, and stripping it again changes nothing. *)
Theorem strip_outer_removed (c : ascii) (s : string) :
  (forall t, strip c s <> String c t)
  /\ last_index (strip c s) <> Ok c
  /\ strip c (strip c s) = strip c s.
Proof.
  unfold strip.
  assert (Hhead : forall t, rstrip c (lstrip c s) <> String c t).
  { intros t. destruct (lstrip c s) as [|a u] eqn:E; [discriminate|].
    pose proof (lstrip_head c s a u E) as Ha.
    destruct (rstrip_keeps_head c a u Ha) as [t' ->].
    intros [= -> _]. rewrite Ascii.eqb_refl in Ha. discriminate Ha. }
  split; [exact Hhead|]. split.
  - destruct (is_empty (rstrip c (lstrip c s))) eqn:E.
    + destruct (rstrip c (lstrip c s)); [discriminate|discriminate E].
    + destruct (rstrip_last_index c _ E) as (a & -> & Ha).
      intros [= ->]. rewrite Ascii.eqb_refl in Ha. discriminate Ha.
  - destruct (rstrip c (lstrip c s)) as [|a u] eqn:E; [reflexivity|].
    assert (Ha : Ascii.eqb a c = false).
    { destruct (Ascii.eqb a c) eqn:Ea; [|reflexivity].
      apply Ascii.eqb_eq in Ea. subst a. destruct (Hhead u). reflexivity. }
    rewrite (lstrip_not_head c a u Ha), <- E. apply rstrip_idem.
Qed.

(** X6: a string wrapped in one pair of the stripped character is given
    back by [strip], provided it does not itself start or end with that
    character (the case of the quoted CDN root in the lookup
    response). *)
Theorem strip_wrapped (c : ascii) (s : string) :
  lstrip c s = s -> rstrip c s = s ->
  strip c (String c (s +:+ String c EmptyString)) = s.
Proof.
  intros Hl Hr. unfold strip. simpl lstrip. rewrite Ascii.eqb_refl.
  destruct s as [|a t].
  - simpl. rewrite Ascii.eqb_refl. reflexivity.
  - pose proof (lstrip_fixed_head c a t Hl) as Ha.
    change (String a t +:+ String c EmptyString)
      with (String a (t +:+ String c EmptyString)).
    rewrite (lstrip_not_head c a _ Ha).
    change (String a (t +:+ String c EmptyString))
      with (String a t +:+ String c EmptyString).
    rewrite rstrip_snoc. exact Hr.
Qed.

Lemma strip_wrapped_witness :
  strip quote (String quote (cdn_root +:+ String quote EmptyString)) = cdn_root.
Proof. apply (strip_wrapped quote cdn_root); reflexivity. Defined.

(** ** The parameter dictionary of create_app *)

Lemma add_v3_parameters_other (a : create_app_args)
    (paramsdict : gmap string pyval) (k : string) :
  ~ In k v3_only_keys ->
  add_v3_parameters a paramsdict !! k = paramsdict !! k.
Proof.
  intros Hk. unfold v3_only_keys in Hk. simpl in Hk.
  unfold add_v3_parameters.
  destruct (storageAccountName a) as [s|]; [destruct (truthy (PStr s))|];
    repeat (rewrite lookup_insert_ne; [|intros <-; tauto]); reflexivity.
Qed.

(** X7: the keys of the parameter map are exactly the thirteen keys of
    the dictionary literal, plus "description" when a non-empty
    description is given, plus the five storage and insights keys when
    the version is v3. *)
Theorem build_params_dom (a : create_app_args)
    (kind zip_url site_name : string) :
  dom (build_params a kind zip_url site_name) =
    list_to_set required_keys
    ∪ (match description a with
       | Some d => if truthy (PStr d) then {[ "description" ]} else ∅
       | None => ∅
       end)
    ∪ (if String.eqb (version a) "v3" then list_to_set v3_only_keys else ∅).
Proof.
  unfold build_params, wrap_values, build_paramsdict, add_v3_parameters,
    add_description, initial_paramsdict, required_keys, v3_only_keys.
  rewrite dom_fmap_L.
  destruct (String.eqb (version a) "v3");
    destruct (description a) as [d|]; try destruct (truthy (PStr d));
    try (destruct (storageAccountName a) as [s|];
         [destruct (truthy (PStr s))|]);
    rewrite ?dom_insert_L, ?dom_singleton_L, ?dom_empty_L;
    simpl list_to_set; set_solver.
Qed.

(** X8: the branches for the description and for v3 never overwrite an
    entry of the dictionary literal: each of its thirteen keys keeps the
    value the literal gave it, and "description" holds the supplied text
    exactly when that text is not empty. *)
Theorem build_paramsdict_base_entries (a : create_app_args)
    (kind zip_url site_name k : string) :
  In k required_keys ->
  build_paramsdict a kind zip_url site_name !! k
    = initial_paramsdict a kind zip_url site_name !! k
  /\ is_Some (initial_paramsdict a kind zip_url site_name !! k)
  /\ build_paramsdict a kind zip_url site_name !! "description"
     = match description a with
       | Some d => if truthy (PStr d) then Some (PStr d) else None
       | None => None
       end.
Proof.
  intros Hk.
  assert (Hnd : k <> "description").
  { intros ->. unfold required_keys in Hk. simpl in Hk.
    repeat (destruct Hk as [Hk|Hk]; [discriminate Hk|]). contradiction. }
  assert (Hn3 : ~ In k v3_only_keys).
  { unfold required_keys in Hk. unfold v3_only_keys. simpl in *.
    intros H3.
    repeat (destruct Hk as [<-|Hk];
            [repeat (destruct H3 as [H3|H3]; [discriminate H3|]);
             contradiction|]).
    contradiction. }
  assert (Hbase : forall k', k' <> "description" -> ~ In k' v3_only_keys ->
            build_paramsdict a kind zip_url site_name !! k'
            = initial_paramsdict a kind zip_url site_name !! k').
  { intros k' H1 H2. unfold build_paramsdict.
    destruct (String.eqb (version a) "v3");
      rewrite ?add_v3_parameters_other by exact H2;
      apply add_description_lookup, H1. }
  split; [apply Hbase; assumption|]. split.
  - unfold required_keys in Hk. simpl in Hk.
    repeat (destruct Hk as [<-|Hk]; [vm_compute; eauto|]). contradiction.
  - unfold build_paramsdict.
    assert (H3 : ~ In "description" v3_only_keys).
    { unfold v3_only_keys. simpl. intros H.
      repeat (destruct H as [H|H]; [discriminate H|]). contradiction. }
    destruct (String.eqb (version a) "v3");
      rewrite ?add_v3_parameters_other by exact H3;
      unfold add_description;
      (destruct (description a) as [d|]; [destruct (truthy (PStr d))|]);
      try apply lookup_insert_eq; vm_compute; reflexivity.
Qed.

Lemma build_paramsdict_base_entries_witness :
  build_paramsdict (sample_args "my-bot" "webapp" "v3" "Csharp")
    "sdk" "https://cdn.example/bot.zip" "my-bot" !! "siteName"
    = initial_paramsdict (sample_args "my-bot" "webapp" "v3" "Csharp")
        "sdk" "https://cdn.example/bot.zip" "my-bot" !! "siteName"
  /\ is_Some (initial_paramsdict (sample_args "my-bot" "webapp" "v3" "Csharp")
               "sdk" "https://cdn.example/bot.zip" "my-bot" !! "siteName")
  /\ build_paramsdict (sample_args "my-bot" "webapp" "v3" "Csharp")
       "sdk" "https://cdn.example/bot.zip" "my-bot" !! "description"
     = None.
Proof.
  apply (build_paramsdict_base_entries
           (sample_args "my-bot" "webapp" "v3" "Csharp")
           "sdk" "https://cdn.example/bot.zip" "my-bot" "siteName").
  unfold required_keys. simpl. tauto.
Defined.

(** X9: with version v3, createNewStorage is true exactly when no
    (non-empty) storage account name is supplied, in which case the name
    is the one derived from the resource name; a supplied name is passed
    as it is.  storageAccountResourceId is empty, useAppInsights is true
    and appInsightsLocation is the normalised location. *)
Theorem build_paramsdict_v3_block (a : create_app_args)
    (kind zip_url site_name : string) :
  version a = "v3" ->
  let supplied :=
    match storageAccountName a with
    | Some s => truthy (PStr s)
    | None => false
    end in
  let p := build_paramsdict a kind zip_url site_name in
  p !! "createNewStorage" = Some (PBool (negb supplied))
  /\ p !! "storageAccountName"
     = Some (PStr (match storageAccountName a with
                   | Some s =>
                       if truthy (PStr s) then s
                       else derive_storage_name (resource_name a)
                   | None => derive_storage_name (resource_name a)
                   end))
  /\ p !! "storageAccountResourceId" = Some (PStr EmptyString)
  /\ p !! "useAppInsights" = Some (PBool true)
  /\ p !! "appInsightsLocation"
     = Some (PStr (normalize_location (appInsightsLocation a))).
Proof.
  intros Hv. cbv zeta. unfold build_paramsdict. rewrite Hv. simpl String.eqb.
  cbv iota. unfold add_v3_parameters, derive_storage_name, normalize_location.
  destruct (storageAccountName a) as [s|]; [destruct (truthy (PStr s))|];
    repeat split; simplify_map_eq; reflexivity.
Qed.

Lemma build_paramsdict_v3_block_witness :
  build_paramsdict
    (sample_args "My_Bot.Name123456789012345678" "webapp" "v3" "Csharp")
    "sdk" "https://cdn.example/bot.zip" "my-bot" !! "createNewStorage"
    = Some (PBool true)
  /\ build_paramsdict
       (sample_args "My_Bot.Name123456789012345678" "webapp" "v3" "Csharp")
       "sdk" "https://cdn.example/bot.zip" "my-bot" !! "storageAccountName"
     = Some (PStr "mybotname1234567890123").
Proof.
  pose proof (build_paramsdict_v3_block
           (sample_args "My_Bot.Name123456789012345678" "webapp" "v3" "Csharp")
           "sdk" "https://cdn.example/bot.zip" "my-bot" eq_refl) as H.
  cbv zeta in H. destruct H as (H1 & H2 & _).
  split; [exact H1|exact H2].
Defined.

(** X10: wrapping loses nothing: reading ['value'] back from every entry
    of the wrapped map gives the raw dictionary again. *)
Theorem wrap_values_round_trip (paramsdict : gmap string pyval) :
  omap get_value (wrap_values paramsdict) = paramsdict.
Proof.
  apply map_eq. intros k. unfold wrap_values.
  rewrite lookup_omap, lookup_fmap.
  destruct (paramsdict !! k) as [v|]; [|reflexivity].
  simpl. apply lookup_singleton_eq.
Qed.

(** ** The resolver and create_app: failures and external calls *)

(** X11: when the lookup answers with a status other than 200, the
    resolver raises the CDN error whatever the version, language and
    kind, and [create_app] stops with it after the lookup alone: no
    site name is derived and nothing is deployed. *)
Theorem lookup_failure
    (requests_get : string -> result http_response)
    (response : http_response)
    (json_dumps : gmap string pyval -> string) (dir_path : string)
    (path_join : string -> string -> string)
    (deployment : deploy_call -> result pyval)
    (create_bot_json : string -> string -> string -> result pyval)
    (version language kind : string) (a : create_app_args)
    (tr : list event) :
  requests_get template_root_url = Ok response ->
  status_code response <> 200%Z ->
  retrieve_bot_template_link requests_get version language kind tr
    = (tr ++ [EvHttpGet template_root_url], Raise cdn_error)
  /\ create_app requests_get json_dumps dir_path path_join deployment
       create_bot_json a tr
     = (tr ++ [EvHttpGet template_root_url], Raise cdn_error).
Proof.
  intros Hget Hst. apply Z.eqb_neq in Hst.
  unfold create_app, retrieve_bot_template_link. run_M.
  rewrite Hget, Hst. split; reflexivity.
Qed.

Lemma lookup_failure_witness :
  retrieve_bot_template_link get_unavailable "v3" "Csharp" "sdk" []
    = ([] ++ [EvHttpGet template_root_url], Raise cdn_error)
  /\ create_app get_unavailable dumps_sample "/opt/botservice" join_sample
       deployment_sample create_bot_json_sample
       (sample_args "----" "webapp" "v3" "Csharp") []
     = ([] ++ [EvHttpGet template_root_url], Raise cdn_error).
Proof.
  apply (lookup_failure get_unavailable
           {| status_code := 500; text := EmptyString |}
           dumps_sample "/opt/botservice" join_sample deployment_sample
           create_bot_json_sample "v3" "Csharp" "sdk"
           (sample_args "----" "webapp" "v3" "Csharp") []).
  - reflexivity.
  - discriminate.
Defined.

(** X12: an exception of the HTTP client itself propagates unchanged
    from the resolver and from [create_app]; nothing is deployed. *)
Theorem request_exception
    (requests_get : string -> result http_response) (e : exn)
    (json_dumps : gmap string pyval -> string) (dir_path : string)
    (path_join : string -> string -> string)
    (deployment : deploy_call -> result pyval)
    (create_bot_json : string -> string -> string -> result pyval)
    (version language kind : string) (a : create_app_args)
    (tr : list event) :
  requests_get template_root_url = Raise e ->
  retrieve_bot_template_link requests_get version language kind tr
    = (tr ++ [EvHttpGet template_root_url], Raise e)
  /\ create_app requests_get json_dumps dir_path path_join deployment
       create_bot_json a tr
     = (tr ++ [EvHttpGet template_root_url], Raise e).
Proof.
  intros Hget.
  unfold create_app, retrieve_bot_template_link. run_M.
  rewrite Hget. split; reflexivity.
Qed.

Lemma request_exception_witness :
  retrieve_bot_template_link
    (fun _ => Raise (OtherException "ConnectionError")) "v4" "Csharp" "sdk" []
    = ([] ++ [EvHttpGet template_root_url],
       Raise (OtherException "ConnectionError"))
  /\ create_app (fun _ => Raise (OtherException "ConnectionError"))
       dumps_sample "/opt/botservice" join_sample
       deployment_sample create_bot_json_sample
       (sample_args "my-bot" "webapp" "v4" "Csharp") []
     = ([] ++ [EvHttpGet template_root_url],
        Raise (OtherException "ConnectionError")).
Proof.
  apply (request_exception
           (fun _ => Raise (OtherException "ConnectionError"))
           (OtherException "ConnectionError")
           dumps_sample "/opt/botservice" join_sample deployment_sample
           create_bot_json_sample "v4" "Csharp" "sdk"
           (sample_args "my-bot" "webapp" "v4" "Csharp") []).
  reflexivity.
Defined.

Lemma append_empty_r (s : string) : s +:+ EmptyString = s.
Proof.
  induction s as [|c s IH]; [reflexivity|].
  change (String c (s +:+ EmptyString) = String c s). f_equal. exact IH.
Qed.

(** X13: whatever its inputs, the resolver makes exactly one external
    call, the HTTP lookup.  When it returns, the template name is one of
    the three class constants and the URL is the quote-stripped root of
    a 200 response, possibly followed by an archive name; when it
    raises, the exception is the CDN error, the unsupported-v4-function
    error, or the one the HTTP client raised. *)
Theorem retrieve_bot_template_link_outcomes
    (requests_get : string -> result http_response)
    (version language kind : string) (tr : list event) :
  fst (retrieve_bot_template_link requests_get version language kind tr)
    = tr ++ [EvHttpGet template_root_url]
  /\ match snd (retrieve_bot_template_link requests_get version language
                 kind tr) with
     | Ok (zip_url, template_name) =>
         (template_name = function_template_name
          \/ template_name = v3_webapp_template_name
          \/ template_name = v4_webapp_template_name)
         /\ exists response suffix,
              requests_get template_root_url = Ok response
              /\ status_code response = 200%Z
              /\ zip_url = strip quote (text response) +:+ suffix
     | Raise e =>
         e = cdn_error \/ e = v4_function_error
         \/ requests_get template_root_url = Raise e
     end.
Proof.
  unfold retrieve_bot_template_link. run_M.
  destruct (requests_get template_root_url) as [response|e] eqn:Hget;
    [|split; [reflexivity|right; right; reflexivity]].
  destruct (Z.eqb_spec (status_code response) 200) as [Hst|Hst]; simpl negb;
    cbv iota; [|split; [reflexivity|left; reflexivity]].
  destruct (String.eqb version "v3"), (String.eqb kind "function");
    try (split; [reflexivity|right; left; reflexivity]);
    destruct (String.eqb language "Csharp");
    try destruct (String.eqb language "Javascript");
    (split; [reflexivity|]); simpl; (split; [tauto|]);
    exists response; eexists; (split; [reflexivity|]); (split; [exact Hst|]);
    first [reflexivity | symmetry; apply append_empty_r].
Qed.

Lemma retrieve_run
    (requests_get : string -> result http_response)
    (version language kind : string) (tr : list event) :
  exists r,
    retrieve_bot_template_link requests_get version language kind tr
      = (tr ++ [EvHttpGet template_root_url], r).
Proof.
  unfold retrieve_bot_template_link. run_M.
  destruct (requests_get template_root_url) as [response|e];
    [|eexists; reflexivity].
  destruct (negb (Z.eqb (status_code response) 200)); [eexists; reflexivity|].
  destruct (String.eqb version "v3"), (String.eqb kind "function");
    eexists; reflexivity.
Qed.

(** X14: whatever its inputs, [create_app] begins with the HTTP lookup
    and then makes at most one deployment call; the bot formatter is
    called only after a deployment that returned, and its result is the
    result of [create_app]; a failing deployment propagates its
    exception; a run without a deployment ends in an exception. *)
Theorem create_app_trace
    (requests_get : string -> result http_response)
    (json_dumps : gmap string pyval -> string) (dir_path : string)
    (path_join : string -> string -> string)
    (deployment : deploy_call -> result pyval)
    (create_bot_json : string -> string -> string -> result pyval)
    (a : create_app_args) (tr : list event) :
  exists rest,
    fst (create_app requests_get json_dumps dir_path path_join deployment
           create_bot_json a tr)
      = tr ++ EvHttpGet template_root_url :: rest
    /\ let outcome :=
         snd (create_app requests_get json_dumps dir_path path_join
                deployment create_bot_json a tr) in
       (rest = [] /\ exists e, outcome = Raise e)
       \/ (exists call e,
             rest = [EvDeploy call]
             /\ deployment call = Raise e /\ outcome = Raise e)
       \/ (exists call v,
             rest = [EvDeploy call;
                     EvCreateBotJson (resource_group_name a)
                       (resource_name a) (password a)]
             /\ deployment call = Ok v
             /\ outcome = create_bot_json (resource_group_name a)
                            (resource_name a) (password a)).
Proof.
  unfold create_app.
  destruct (retrieve_run requests_get (version a) (language a)
              (if String.eqb (kind a) "webapp" then "sdk" else kind a) tr)
    as [r Hr].
  run_M. rewrite Hr.
  destruct r as [[zip_url template_name]|e];
    [|exists []; split; [reflexivity|left; split; [reflexivity|eauto]]].
  destruct (derive_site_name (resource_name a)) as [site_name|e];
    [|exists []; split; [reflexivity|left; split; [reflexivity|eauto]]].
  match goal with |- context [deployment ?c] =>
    set (call := c); destruct (deployment call) as [v|e] eqn:Hd
  end.
  - eexists. split; [simpl; rewrite <- !app_assoc; reflexivity|].
    right; right. exists call, v. simpl. auto.
  - eexists. split; [simpl; rewrite <- !app_assoc; reflexivity|].
    right; left. exists call, e. simpl. auto.
Qed.

(** X15: on a successful lookup, a supported configuration and a
    resource name that leaves a site name, [create_app] calls
    [deploy_arm_template] once, with the resource group, the template
    file of the version/kind table (for the kind with webapp read as
    sdk) under the module directory, the serialised wrapped parameters
    built with the derived site name, the resource name as deployment
    name, and mode Incremental. *)
Theorem create_app_success
    (requests_get : string -> result http_response)
    (response : http_response)
    (json_dumps : gmap string pyval -> string) (dir_path : string)
    (path_join : string -> string -> string)
    (deployment : deploy_call -> result pyval)
    (create_bot_json : string -> string -> string -> result pyval)
    (a : create_app_args) (tr : list event) :
  requests_get template_root_url = Ok response ->
  status_code response = 200%Z ->
  ~ (version a <> "v3" /\ kind a = "function") ->
  is_empty (spec_site_name (resource_name a)) = false ->
  exists zip_url template_name,
    spec_template_name (version a) (normalized_kind (kind a))
      = Some template_name
    /\ (language a = "Csharp" ->
        zip_url = strip quote (text response)
                  +:+ csharp_archive (version a) (normalized_kind (kind a)))
    /\ (language a = "Javascript" ->
        zip_url = strip quote (text response)
                  +:+ javascript_archive (version a)
                        (normalized_kind (kind a)))
    /\ let call :=
         {| call_resource_group_name := resource_group_name a;
            call_template_file := path_join dir_path template_name;
            call_parameters :=
              [[json_dumps
                  (build_params a (normalized_kind (kind a)) zip_url
                     (spec_site_name (resource_name a)))]];
            call_deployment_name := resource_name a;
            call_mode := "Incremental" |} in
       create_app requests_get json_dumps dir_path path_join deployment
         create_bot_json a tr
       = match deployment call with
         | Ok _ =>
             (tr ++ [EvHttpGet template_root_url; EvDeploy call;
                     EvCreateBotJson (resource_group_name a)
                       (resource_name a) (password a)],
              create_bot_json (resource_group_name a) (resource_name a)
                (password a))
         | Raise e =>
             (tr ++ [EvHttpGet template_root_url; EvDeploy call], Raise e)
         end.
Proof.
  intros Hget Hst Hcase Hne.
  assert (Hcase' : version a = "v3" \/ normalized_kind (kind a) <> "function").
  { destruct (not_v4_function _ _ Hcase) as [Hv|Hk]; [now left|right].
    apply normalized_kind_function, Hk. }
  destruct (retrieve_200 requests_get response (version a) (language a) _ tr
              Hget Hst Hcase')
    as (zip_url & template_name & Hrun & Ht & Hc & Hj & _).
  exists zip_url, template_name.
  split; [exact Ht|]. split; [exact Hc|]. split; [exact Hj|].
  cbv zeta. unfold create_app. fold (normalized_kind (kind a)).
  run_M. rewrite Hrun.
  rewrite derive_site_name_rstrip, Hne. cbv beta iota.
  match goal with |- context [deployment ?c] => destruct (deployment c) end;
    rewrite <- ?app_assoc; reflexivity.
Qed.

Lemma create_app_success_witness :
  exists zip_url template_name,
    spec_template_name "v4" (normalized_kind "webapp") = Some template_name
    /\ ("Csharp" = "Csharp" ->
        zip_url = strip quote (text response_ok)
                  +:+ csharp_archive "v4" (normalized_kind "webapp"))
    /\ ("Csharp" = "Javascript" ->
        zip_url = strip quote (text response_ok)
                  +:+ javascript_archive "v4" (normalized_kind "webapp"))
    /\ let a := sample_args "My--Bot---" "webapp" "v4" "Csharp" in
       let call :=
         {| call_resource_group_name := "rg";
            call_template_file := join_sample "/opt/botservice" template_name;
            call_parameters :=
              [[dumps_sample
                  (build_params a (normalized_kind "webapp") zip_url
                     (spec_site_name "My--Bot---"))]];
            call_deployment_name := "My--Bot---";
            call_mode := "Incremental" |} in
       create_app get_ok dumps_sample "/opt/botservice" join_sample
         deployment_sample create_bot_json_sample a []
       = match deployment_sample call with
         | Ok _ =>
             ([] ++ [EvHttpGet template_root_url; EvDeploy call;
                     EvCreateBotJson "rg" "My--Bot---" "secret"],
              create_bot_json_sample "rg" "My--Bot---" "secret")
         | Raise e =>
             ([] ++ [EvHttpGet template_root_url; EvDeploy call], Raise e)
         end.
Proof.
  apply (create_app_success get_ok response_ok dumps_sample
           "/opt/botservice" join_sample deployment_sample
           create_bot_json_sample
           (sample_args "My--Bot---" "webapp" "v4" "Csharp") []).
  - reflexivity.
  - reflexivity.
  - intros [_ H]. discriminate H.
  - reflexivity.
Defined.

(** X16: the kind webapp is an alias of sdk: [create_app] behaves the
    same, calls and result, for arguments that differ only in having
    one or the other as kind. *)
Theorem create_app_webapp_is_sdk
    (requests_get : string -> result http_response)
    (json_dumps : gmap string pyval -> string) (dir_path : string)
    (path_join : string -> string -> string)
    (deployment : deploy_call -> result pyval)
    (create_bot_json : string -> string -> string -> result pyval)
    (a : create_app_args) (tr : list event) :
  create_app requests_get json_dumps dir_path path_join deployment
    create_bot_json (with_kind a "webapp") tr
  = create_app requests_get json_dumps dir_path path_join deployment
      create_bot_json (with_kind a "sdk") tr.
Proof. reflexivity. Qed.

(** ** The parameter merge: edge cases and composition *)

Lemma merge_params_app (parse : string -> result pyval)
    (upd : gmap string pyval -> list pyval -> result (gmap string pyval))
    (l1 l2 : list string) (P : gmap string pyval) :
  merge_params parse upd P (l1 ++ l2) =
    match merge_params parse upd P l1 with
    | Ok P' => merge_params parse upd P' l2
    | Raise e => Raise e
    end.
Proof.
  revert P. induction l1 as [|item l1 IH]; intros P; [reflexivity|].
  simpl. destruct (merge_item parse upd P item) as [P'|e]; simpl;
    [apply IH|reflexivity].
Qed.

Lemma merge_lists_concat (parse : string -> result pyval)
    (upd : gmap string pyval -> list pyval -> result (gmap string pyval))
    (lists : list (list string)) (P : gmap string pyval) :
  merge_lists parse upd P lists = merge_params parse upd P (concat lists).
Proof.
  revert P. induction lists as [|params lists IH]; intros P; [reflexivity|].
  simpl. rewrite merge_params_app.
  destruct (merge_params parse upd P params) as [P'|e]; simpl;
    [apply IH|reflexivity].
Qed.

(** X17: without sources the merge returns the empty map: for [None],
    for the empty list, and for any list of empty sources. *)
Theorem process_parameters_empty (parse : string -> result pyval)
    (upd : gmap string pyval -> list pyval -> result (gmap string pyval))
    (lists : list (list string)) :
  Forall (fun params => params = []) lists ->
  process_parameters parse upd None = Ok ∅
  /\ process_parameters parse upd (Some lists) = Ok ∅.
Proof.
  intros H. split; [reflexivity|].
  unfold process_parameters, default, id. cbn [from_option].
  induction H as [|params lists -> _ IH]; [reflexivity|exact IH].
Qed.

Lemma process_parameters_empty_witness :
  process_parameters sample_parse update_sample None = Ok ∅
  /\ process_parameters sample_parse update_sample (Some [[]; []]) = Ok ∅.
Proof.
  apply (process_parameters_empty sample_parse update_sample [[]; []]).
  repeat constructor.
Defined.

(** X18: how the raw strings are grouped into sources does not matter:
    the merge of a list of sources is the merge of the single source
    that concatenates them, errors included. *)
Theorem process_parameters_flatten (parse : string -> result pyval)
    (upd : gmap string pyval -> list pyval -> result (gmap string pyval))
    (lists : list (list string)) :
  process_parameters parse upd (Some lists)
    = process_parameters parse upd (Some [concat lists]).
Proof.
  unfold process_parameters, default, id. cbn [from_option].
  rewrite !merge_lists_concat. simpl concat. rewrite app_nil_r.
  reflexivity.
Qed.

Lemma merge_item_entry_error (parse : string -> result pyval)
    (upd : gmap string pyval -> list pyval -> result (gmap string pyval))
    (item : string) (e : exn) (P : gmap string pyval) :
  entry_error parse item = Some e -> merge_item parse upd P item = Raise e.
Proof.
  unfold entry_error, merge_item, _try_parse_json_object, get_parameters.
  destruct (parse item) as [[| | | | |d]|[]]; intros [= <-]; reflexivity.
Qed.

(** X19: the merge stops at the first entry that raises: when the
    entries before it are unparsable strings or objects, and the entry
    parses to something that is not a dict (AttributeError) or makes the
    parser raise something other than CLIError, the whole merge raises
    that exception, whatever follows. *)
Theorem process_parameters_first_error (parse : string -> result pyval)
    (upd : gmap string pyval -> list pyval -> result (gmap string pyval))
    (lists_before lists_after : list (list string))
    (before after : list string) (item : string) (e : exn) :
  Forall (Forall (fun item => well_formed parse item = true)) lists_before ->
  Forall (fun item => well_formed parse item = true) before ->
  entry_error parse item = Some e ->
  process_parameters parse upd
    (Some (lists_before ++ (before ++ item :: after) :: lists_after))
    = Raise e.
Proof.
  intros Hlb Hb He.
  unfold process_parameters, default, id. cbn [from_option].
  rewrite merge_lists_concat, concat_app. simpl concat.
  rewrite <- !app_assoc, merge_params_app.
  rewrite <- merge_lists_concat.
  destruct (merge_lists_well_formed parse upd lists_before Hlb ∅)
    as (m1 & -> & _).
  rewrite merge_params_app.
  destruct (merge_params_well_formed parse upd before Hb m1) as (m2 & -> & _).
  simpl. rewrite (merge_item_entry_error parse upd item e m2 He).
  reflexivity.
Qed.

Lemma process_parameters_first_error_witness :
  process_parameters sample_parse update_sample
    (Some ([[json_a]] ++ (["not json"] ++ "null" :: [json_b]) :: [["{}"]]))
    = Raise AttributeError.
Proof.
  apply (process_parameters_first_error sample_parse update_sample
           [[json_a]] [["{}"]] ["not json"] [json_b] "null" AttributeError).
  - repeat constructor.
  - repeat constructor.
  - reflexivity.
Defined.

(** X20: merging the same sources twice gives the same map as merging
    them once (for sources of unparsable strings and objects). *)
Theorem process_parameters_repeat (parse : string -> result pyval)
    (upd : gmap string pyval -> list pyval -> result (gmap string pyval))
    (lists : list (list string)) :
  Forall (Forall (fun item => well_formed parse item = true)) lists ->
  process_parameters parse upd (Some (lists ++ lists))
    = process_parameters parse upd (Some lists).
Proof.
  intros Hwf.
  unfold process_parameters, default, id. cbn [from_option].
  destruct (merge_lists_well_formed parse upd lists Hwf ∅) as (m & -> & L).
  assert (Hwf2 : Forall (Forall (fun item => well_formed parse item = true))
                   (lists ++ lists)) by (apply Forall_app; split; assumption).
  destruct (merge_lists_well_formed parse upd (lists ++ lists) Hwf2 ∅)
    as (m2 & -> & L2).
  f_equal. apply map_eq. intros k.
  rewrite L2, L, concat_app, latest_value_app.
  destruct (latest_value parse k (concat lists)); reflexivity.
Qed.

Lemma process_parameters_repeat_witness :
  process_parameters sample_parse update_sample
    (Some ([[json_a]; [json_b]] ++ [[json_a]; [json_b]]))
    = process_parameters sample_parse update_sample
        (Some [[json_a]; [json_b]]).
Proof.
  apply (process_parameters_repeat sample_parse update_sample
           [[json_a]; [json_b]]).
  repeat constructor.
Defined.

Lemma build_paramsdict_other (a : create_app_args)
    (kind zip_url site_name k : string) :
  k <> "description" -> ~ In k v3_only_keys ->
  build_paramsdict a kind zip_url site_name !! k
    = initial_paramsdict a kind zip_url site_name !! k.
Proof.
  intros H1 H2. unfold build_paramsdict.
  destruct (String.eqb (version a) "v3");
    rewrite ?add_v3_parameters_other by exact H2;
    apply add_description_lookup, H1.
Qed.

Lemma truthy_dict_lookup (m : gmap string pyval) (k : string) (v : pyval) :
  m !! k = Some v -> truthy (PDict m) = true.
Proof.
  intros Hk. simpl. destruct (size m) eqn:E; [|reflexivity].
  apply map_size_empty_iff in E. subst m.
  rewrite lookup_empty in Hk. discriminate Hk.
Qed.

Lemma merge_of_build_params (parse : string -> result pyval)
    (upd : gmap string pyval -> list pyval -> result (gmap string pyval))
    (json_dumps : gmap string pyval -> string)
    (a : create_app_args) (kind zip_url site_name : string) :
  parse (json_dumps (build_params a kind zip_url site_name))
    = Ok (PDict (build_params a kind zip_url site_name)) ->
  process_parameters parse upd
    (Some [[json_dumps (build_params a kind zip_url site_name)]])
    = Ok (build_params a kind zip_url site_name).
Proof.
  intros Hparse.
  assert (Hnone : build_params a kind zip_url site_name !! "parameters" = None).
  { unfold build_params, wrap_values. rewrite lookup_fmap.
    rewrite build_paramsdict_other.
    - vm_compute. reflexivity.
    - discriminate.
    - unfold v3_only_keys. simpl. intros H.
      repeat (destruct H as [H|H]; [discriminate H|]). contradiction. }
  assert (Hsome : truthy (PDict (build_params a kind zip_url site_name)) = true).
  { apply (truthy_dict_lookup _ "botId"
             (PDict {[ "value" := PStr (resource_name a) ]})).
    unfold build_params, wrap_values. rewrite lookup_fmap.
    rewrite build_paramsdict_other.
    - vm_compute. reflexivity.
    - discriminate.
    - unfold v3_only_keys. simpl. intros H.
      repeat (destruct H as [H|H]; [discriminate H|]). contradiction. }
  unfold process_parameters, default, id.
  cbn [from_option merge_lists merge_params].
  unfold merge_item, _try_parse_json_object, get_parameters.
  rewrite Hparse, Hnone. cbn [mbind result_bind default from_option id].
  unfold default, id. cbn [from_option]. rewrite Hsome.
  cbn [dict_update mbind result_bind].
  rewrite (right_id_L ∅ (∪)). reflexivity.
Qed.

(** X21: the parameters that [create_app] serialises survive the merge
    of [deploy_arm_template]: if the parser reads the serialised map
    back, merging that single source gives the wrapped parameter map
    itself (it has no "parameters" key and is never empty). *)
Theorem process_parameters_build_params (parse : string -> result pyval)
    (upd : gmap string pyval -> list pyval -> result (gmap string pyval))
    (json_dumps : gmap string pyval -> string)
    (a : create_app_args) (kind zip_url site_name : string) :
  parse (json_dumps (build_params a kind zip_url site_name))
    = Ok (PDict (build_params a kind zip_url site_name)) ->
  process_parameters parse upd
    (Some [[json_dumps (build_params a kind zip_url site_name)]])
    = Ok (build_params a kind zip_url site_name).
Proof. apply merge_of_build_params. Qed.

Lemma process_parameters_build_params_witness :
  process_parameters parse_sample_params update_sample
    (Some [[dumps_sample
              (build_params (sample_args "my-bot" "webapp" "v4" "Csharp")
                 "sdk" "https://cdn.example/bot.zip" "my-bot")]])
    = Ok (build_params (sample_args "my-bot" "webapp" "v4" "Csharp")
            "sdk" "https://cdn.example/bot.zip" "my-bot").
Proof.
  apply (process_parameters_build_params parse_sample_params update_sample
           dumps_sample (sample_args "my-bot" "webapp" "v4" "Csharp")
           "sdk" "https://cdn.example/bot.zip" "my-bot").
  reflexivity.
Defined.

(** ** deploy_arm_template *)

Ltac run_ArmM :=
  unfold mbind, ArmM_bind, mret, ArmM_ret, arm_external, arm_lift.

(** X22: a template file that cannot be read, or whose content is not a
    JSON object, stops [deploy_arm_template] after the file read: the
    reader's exception propagates, and a non-object (such as the [None]
    that [get_file_json] may return) raises AttributeError at
    [template_obj.get]; nothing is submitted. *)
Theorem deploy_arm_template_bad_template
    (get_file_json : option string -> result pyval)
    (parse : string -> result pyval)
    (upd : gmap string pyval -> list pyval -> result (gmap string pyval))
    (json_round_trip : pyval -> result pyval)
    (create_or_update :
       string -> option string -> deployment_properties -> result pyval)
    (resource_group_name : string) (template_file deployment_name : option string)
    (parameters : option (list (list string))) (mode : option string)
    (tr : list arm_event) (e : exn) :
  match get_file_json template_file with
  | Raise e' => e = e'
  | Ok (PDict _) => False
  | Ok _ => e = AttributeError
  end ->
  deploy_arm_template (Ok tt) get_file_json parse upd json_round_trip
    create_or_update resource_group_name template_file deployment_name
    parameters mode tr
  = (tr ++ [ArmGetFileJson template_file], Raise e).
Proof.
  unfold deploy_arm_template. run_ArmM.
  destruct (get_file_json template_file) as [[| | | | |d]|e']; intros H;
    try contradiction; subst e; reflexivity.
Qed.

Lemma deploy_arm_template_bad_template_witness :
  deploy_arm_template (Ok tt) (fun _ => Ok PNone) sample_parse update_sample
    json_round_trip_sample create_or_update_sample "rg"
    (Some "webapp.template.json") (Some "my-bot") None (Some "Incremental") []
  = ([] ++ [ArmGetFileJson (Some "webapp.template.json")],
     Raise AttributeError).
Proof.
  apply (deploy_arm_template_bad_template (fun _ => Ok PNone) sample_parse
           update_sample json_round_trip_sample create_or_update_sample "rg"
           (Some "webapp.template.json") (Some "my-bot") None
           (Some "Incremental") [] AttributeError).
  reflexivity.
Defined.

Lemma deploy_arm_template_run
    (get_file_json : option string -> result pyval)
    (parse : string -> result pyval)
    (upd : gmap string pyval -> list pyval -> result (gmap string pyval))
    (json_round_trip : pyval -> result pyval)
    (create_or_update :
       string -> option string -> deployment_properties -> result pyval)
    (resource_group_name : string) (template_file deployment_name : option string)
    (parameters : option (list (list string))) (mode : option string)
    (tr : list arm_event)
    (d merged : gmap string pyval) :
  get_file_json template_file = Ok (PDict d) ->
  process_parameters parse upd parameters = Ok merged ->
  (forall v, json_round_trip v = Ok v) ->
  deploy_arm_template (Ok tt) get_file_json parse upd json_round_trip
    create_or_update resource_group_name template_file deployment_name
    parameters mode tr
  = (tr ++ [ArmGetFileJson template_file;
            ArmCreateOrUpdate resource_group_name deployment_name
              {| dp_template :=
                   PDict (<["resources" :=
                              default (PList []) (d !! "resources")]> d);
                 dp_template_link := None;
                 dp_parameters := PDict merged;
                 dp_mode := mode |}],
     create_or_update resource_group_name deployment_name
       {| dp_template :=
            PDict (<["resources" := default (PList []) (d !! "resources")]> d);
          dp_template_link := None;
          dp_parameters := PDict merged;
          dp_mode := mode |}).
Proof.
  intros Hfile Hmerge Hrt.
  unfold deploy_arm_template. run_ArmM.
  rewrite Hfile. cbn [py_get py_setitem]. rewrite Hmerge.
  rewrite !Hrt.
  assert (Hm : (if truthy (PDict merged) then merged else ∅) = merged).
  { destruct (truthy (PDict merged)) eqn:E; [reflexivity|].
    symmetry. apply truthy_dict_false, E. }
  rewrite Hm, <- app_assoc. reflexivity.
Qed.

(** X23: for a template that is a JSON object and parameters that
    merge, [deploy_arm_template] submits exactly one deployment and
    returns its outcome.  The submitted template is the file's object
    with a "resources" member, the file's own when it has one and the
    empty list otherwise; the submitted parameters are the merged map
    (the empty map when there are none); there is no template link and
    the mode is the one given. *)
Theorem deploy_arm_template_submits
    (get_file_json : option string -> result pyval)
    (parse : string -> result pyval)
    (upd : gmap string pyval -> list pyval -> result (gmap string pyval))
    (json_round_trip : pyval -> result pyval)
    (create_or_update :
       string -> option string -> deployment_properties -> result pyval)
    (resource_group_name : string) (template_file deployment_name : option string)
    (parameters : option (list (list string))) (mode : option string)
    (tr : list arm_event)
    (d merged : gmap string pyval) :
  get_file_json template_file = Ok (PDict d) ->
  process_parameters parse upd parameters = Ok merged ->
  (forall v, json_round_trip v = Ok v) ->
  let template :=
    <["resources" := default (PList []) (d !! "resources")]> d in
  let properties :=
    {| dp_template := PDict template;
       dp_template_link := None;
       dp_parameters := PDict merged;
       dp_mode := mode |} in
  deploy_arm_template (Ok tt) get_file_json parse upd json_round_trip
    create_or_update resource_group_name template_file deployment_name
    parameters mode tr
  = (tr ++ [ArmGetFileJson template_file;
            ArmCreateOrUpdate resource_group_name deployment_name properties],
     create_or_update resource_group_name deployment_name properties)
  /\ is_Some (template !! "resources")
  /\ (forall r, d !! "resources" = Some r -> template = d)
  /\ (forall k, k <> "resources" -> template !! k = d !! k).
Proof.
  intros Hfile Hmerge Hrt. cbv zeta. split; [|split; [|split]].
  - apply deploy_arm_template_run; assumption.
  - rewrite lookup_insert_eq. eauto.
  - intros r Hr. rewrite Hr. apply insert_id, Hr.
  - intros k Hk. apply lookup_insert_ne. congruence.
Qed.

Lemma deploy_arm_template_submits_witness :
  deploy_arm_template (Ok tt) get_file_json_sample sample_parse update_sample
    json_round_trip_sample create_or_update_sample "rg"
    (Some "webapp.template.json") (Some "my-bot") None (Some "Incremental") []
  = ([] ++ [ArmGetFileJson (Some "webapp.template.json");
            ArmCreateOrUpdate "rg" (Some "my-bot")
              {| dp_template :=
                   PDict (<["resources" := PList []]> template_sample);
                 dp_template_link := None;
                 dp_parameters := PDict ∅;
                 dp_mode := Some "Incremental" |}],
     Ok (PStr "Succeeded")).
Proof.
  exact (proj1 (deploy_arm_template_submits get_file_json_sample sample_parse
           update_sample json_round_trip_sample create_or_update_sample "rg"
           (Some "webapp.template.json") (Some "my-bot") None
           (Some "Incremental") [] template_sample ∅
           eq_refl eq_refl (fun v => eq_refl))).
Defined.

(** X24: when merging the parameters raises, [deploy_arm_template]
    raises the same exception after reading the template file, without
    submitting a deployment. *)
Theorem deploy_arm_template_merge_error
    (get_file_json : option string -> result pyval)
    (parse : string -> result pyval)
    (upd : gmap string pyval -> list pyval -> result (gmap string pyval))
    (json_round_trip : pyval -> result pyval)
    (create_or_update :
       string -> option string -> deployment_properties -> result pyval)
    (resource_group_name : string) (template_file deployment_name : option string)
    (parameters : option (list (list string))) (mode : option string)
    (tr : list arm_event) (d : gmap string pyval) (e : exn) :
  get_file_json template_file = Ok (PDict d) ->
  process_parameters parse upd parameters = Raise e ->
  deploy_arm_template (Ok tt) get_file_json parse upd json_round_trip
    create_or_update resource_group_name template_file deployment_name
    parameters mode tr
  = (tr ++ [ArmGetFileJson template_file], Raise e).
Proof.
  intros Hfile Hmerge. unfold deploy_arm_template. run_ArmM.
  rewrite Hfile. cbn [py_get py_setitem]. rewrite Hmerge. reflexivity.
Qed.

Lemma deploy_arm_template_merge_error_witness :
  deploy_arm_template (Ok tt) get_file_json_sample sample_parse update_sample
    json_round_trip_sample create_or_update_sample "rg"
    (Some "webapp.template.json") (Some "my-bot") (Some [["0"]])
    (Some "Incremental") []
  = ([] ++ [ArmGetFileJson (Some "webapp.template.json")],
     Raise AttributeError).
Proof.
  apply (deploy_arm_template_merge_error get_file_json_sample sample_parse
           update_sample json_round_trip_sample create_or_update_sample "rg"
           (Some "webapp.template.json") (Some "my-bot") (Some [["0"]])
           (Some "Incremental") [] template_sample AttributeError);
    reflexivity.
Defined.

(** X25: end to end, the deployment receives the parameters that
    [create_app] built: when the parser reads the serialised wrapped
    map back and the template file holds an object,
    [deploy_arm_template] called as [create_app] calls it submits that
    wrapped map as the deployment parameters, in mode Incremental. *)
Theorem deploy_arm_template_of_create_app
    (get_file_json : option string -> result pyval)
    (parse : string -> result pyval)
    (upd : gmap string pyval -> list pyval -> result (gmap string pyval))
    (json_round_trip : pyval -> result pyval)
    (create_or_update :
       string -> option string -> deployment_properties -> result pyval)
    (json_dumps : gmap string pyval -> string)
    (a : create_app_args) (kind zip_url site_name template_file : string)
    (tr : list arm_event) (d : gmap string pyval) :
  get_file_json (Some template_file) = Ok (PDict d) ->
  parse (json_dumps (build_params a kind zip_url site_name))
    = Ok (PDict (build_params a kind zip_url site_name)) ->
  (forall v, json_round_trip v = Ok v) ->
  exists properties,
    deploy_arm_template (Ok tt) get_file_json parse upd json_round_trip
      create_or_update (resource_group_name a) (Some template_file)
      (Some (resource_name a))
      (Some [[json_dumps (build_params a kind zip_url site_name)]])
      (Some "Incremental") tr
    = (tr ++ [ArmGetFileJson (Some template_file);
              ArmCreateOrUpdate (resource_group_name a)
                (Some (resource_name a)) properties],
       create_or_update (resource_group_name a) (Some (resource_name a))
         properties)
    /\ dp_parameters properties
       = PDict (build_params a kind zip_url site_name)
    /\ dp_mode properties = Some "Incremental"
    /\ dp_template_link properties = None.
Proof.
  intros Hfile Hparse Hrt.
  eexists. split.
  - apply deploy_arm_template_run;
      [exact Hfile|apply merge_of_build_params, Hparse|exact Hrt].
  - repeat split.
Qed.

Lemma deploy_arm_template_of_create_app_witness :
  exists properties,
    deploy_arm_template (Ok tt) get_file_json_sample parse_sample_params
      update_sample json_round_trip_sample create_or_update_sample
      "rg" (Some "webappv4.template.json") (Some "my-bot")
      (Some [[dumps_sample
                (build_params (sample_args "my-bot" "webapp" "v4" "Csharp")
                   "sdk" "https://cdn.example/bot.zip" "my-bot")]])
      (Some "Incremental") []
    = ([] ++ [ArmGetFileJson (Some "webappv4.template.json");
              ArmCreateOrUpdate "rg" (Some "my-bot") properties],
       create_or_update_sample "rg" (Some "my-bot") properties)
    /\ dp_parameters properties
       = PDict (build_params (sample_args "my-bot" "webapp" "v4" "Csharp")
                  "sdk" "https://cdn.example/bot.zip" "my-bot")
    /\ dp_mode properties = Some "Incremental"
    /\ dp_template_link properties = None.
Proof.
  apply (deploy_arm_template_of_create_app get_file_json_sample
           parse_sample_params update_sample json_round_trip_sample
           create_or_update_sample dumps_sample
           (sample_args "my-bot" "webapp" "v4" "Csharp")
           "sdk" "https://cdn.example/bot.zip" "my-bot"
           "webappv4.template.json" [] template_sample).
  - reflexivity.
  - reflexivity.
  - intros v. reflexivity.
Defined.

(** ** update *)

(** X26: [update] returns [None], for every client, when reading
    [parameters.name] raises AttributeError, and also when the name is
    found but [parameters.__dict__] raises AttributeError. *)
Theorem update_missing_name
    (client_update : gmap string pyval -> result pyval)
    (parameters : py_object) (resource_group_name : string) :
  obj_attr parameters "name" = Raise AttributeError
  \/ ((exists name, obj_attr parameters "name" = Ok name)
      /\ obj_dict parameters = Raise AttributeError) ->
  update client_update parameters resource_group_name = Ok PNone.
Proof.
  intros [H|[[name H] Hd]]; unfold update; rewrite H; [reflexivity|].
  cbn [mbind result_bind]. rewrite Hd. reflexivity.
Qed.

Lemma update_missing_name_witness :
  update client_sample (plain_instance {[ "kind" := PStr "sdk" ]}) "rg"
    = Ok PNone.
Proof.
  apply (update_missing_name client_sample
           (plain_instance {[ "kind" := PStr "sdk" ]}) "rg").
  left. reflexivity.
Defined.

(** X27: [update] never raises AttributeError: one raised by the client
    is turned into [None] as well. *)
Theorem update_never_attribute_error
    (client_update : gmap string pyval -> result pyval)
    (parameters : py_object) (resource_group_name : string) :
  update client_update parameters resource_group_name <> Raise AttributeError.
Proof.
  unfold update.
  match goal with |- match ?r with _ => _ end <> _ => destruct r as [v|[]] end;
    discriminate.
Qed.

(** X28: for a parameters object whose [name] reads as a value and whose
    instance dictionary is [attributes], the client is called with those
    attributes together with [resource_group_name] and [resource_name]
    set to that name, and its outcome is returned (an AttributeError as
    [None]); but an instance dictionary that itself has a key
    [resource_group_name] or [resource_name] makes the call a
    TypeError. *)
Theorem update_calls_client
    (client_update : gmap string pyval -> result pyval)
    (parameters : py_object) (resource_group_name : string) (name : pyval)
    (attributes : gmap string pyval) :
  obj_attr parameters "name" = Ok name ->
  obj_dict parameters = Ok attributes ->
  (attributes !! "resource_group_name" = None ->
   attributes !! "resource_name" = None ->
   update client_update parameters resource_group_name
   = match client_update
             (<["resource_group_name" := PStr resource_group_name]>
                (<["resource_name" := name]> attributes)) with
     | Raise AttributeError => Ok PNone
     | r => r
     end)
  /\ (is_Some (attributes !! "resource_group_name")
      \/ is_Some (attributes !! "resource_name") ->
      update client_update parameters resource_group_name = Raise TypeError).
Proof.
  intros Hname Hdict. unfold update, call_kwargs. rewrite Hname, Hdict.
  cbn [mbind result_bind]. split.
  - intros -> ->. reflexivity.
  - intros [[v ->]|[v Hv]]; [reflexivity|].
    rewrite Hv. destruct (attributes !! "resource_group_name");
      reflexivity.
Qed.

Lemma update_calls_client_witness :
  update client_sample
    (plain_instance {[ "name" := PStr "my-bot"; "kind" := PStr "sdk" ]}) "rg"
  = Ok (PDict {[ "resource_group_name" := PStr "rg";
                 "resource_name" := PStr "my-bot";
                 "name" := PStr "my-bot"; "kind" := PStr "sdk" ]}).
Proof.
  exact (proj1 (update_calls_client client_sample
           (plain_instance {[ "name" := PStr "my-bot"; "kind" := PStr "sdk" ]})
           "rg" (PStr "my-bot")
           {[ "name" := PStr "my-bot"; "kind" := PStr "sdk" ]}
           eq_refl eq_refl) eq_refl eq_refl).
Defined.
